(** * Gulf water-quality pipeline: a shallow embedding of [main.py], of
    [web_server.py] and of the payload validation of
    [dev_archive/validate_values.py], and the properties of the analysis
    pipeline and of its job state machine.

    Conventions of the embedding.
    - A Python [str] is a [string]; a character is a code point below 256.
    - Functions that touch files, the network, the vector store or the global
      [analysis_state] are computations in the monad [M]: they take the
      process state [Sys] and return a [result] (a value, or the exception
      that was raised) together with the new state.  A mutation made before
      an exception is raised is kept, as in Python.
    - The pandas, plotly, requests and Chroma libraries are outside the
      pipeline.  A CSV file is the table pandas parses from it; a cell
      carries the readings [pd.to_numeric] and [pd.to_datetime] give for it;
      the HTTP endpoint and the similarity search are oracles of the [World].
    - A write into the file store always succeeds: a disk that refuses a
      write is outside the model.
    - [print] writes to the console only and is left out. *)

From Stdlib Require Import Ascii QArith Qminmax Lqa.
From stdpp Require Import base option list sorting gmap strings pretty.

Open Scope string_scope.
Open Scope list_scope.
Open Scope nat_scope.

(** ** Characters and the string helpers of the standard library *)

Module Py.

(** [str.isspace] on one character, which is also what [\s] matches in a
    [str] pattern: TAB..CR, FS..US, SPACE, NEL and NBSP below 256. *)
Definition isspace (c : ascii) : bool :=
  let n := nat_of_ascii c in
  ((9 <=? n) && (n <=? 13) || (28 <=? n) && (n <=? 32)
   || (n =? 133) || (n =? 160))%nat.

(** [s.lstrip(chars)] and [s.rstrip(chars)], the set of characters given as a
    predicate. *)
Fixpoint lstrip (p : ascii → bool) (s : string) : string :=
  match s with
  | "" => ""
  | String c s' => if p c then lstrip p s' else s
  end.

Fixpoint rstrip (p : ascii → bool) (s : string) : string :=
  match s with
  | "" => ""
  | String c s' =>
      match rstrip p s' with
      | "" => if p c then "" else String c ""
      | r => String c r
      end
  end.

Definition strip_chars (p : ascii → bool) (s : string) : string :=
  rstrip p (lstrip p s).

(** [s.strip()] *)
Definition strip : string → string := strip_chars isspace.

(** [s[:n]] *)
Fixpoint take (n : nat) (s : string) : string :=
  match n, s with
  | S n', String c s' => String c (take n' s')
  | _, _ => ""
  end.

(** [re.sub(p+, repl, s)] for a one-character class [p]: every maximal run of
    characters of the class is replaced by [repl].  [in_run] tells whether
    the previous character belonged to the class. *)
Fixpoint sub_runs (p : ascii → bool) (repl : string) (in_run : bool)
    (s : string) : string :=
  match s with
  | "" => ""
  | String c s' =>
      if p c then
        if in_run then sub_runs p repl true s'
        else repl +:+ sub_runs p repl true s'
      else String c (sub_runs p repl false s')
  end.

Definition re_sub (p : ascii → bool) (repl s : string) : string :=
  sub_runs p repl false s.

(** Truthiness of a [str]. *)
Definition truthy (s : string) : bool :=
  match s with "" => false | _ => true end.

(** [a or b] on strings. *)
Definition or_else (a b : string) : string := if truthy a then a else b.

(** *** [os.path] (POSIX flavour) *)

Definition sep : ascii := "/"%char.

Definition startswith_sep (s : string) : bool :=
  match s with
  | String c _ => Ascii.eqb c sep
  | "" => false
  end.

Fixpoint endswith_sep (s : string) : bool :=
  match s with
  | "" => false
  | String c "" => Ascii.eqb c sep
  | String _ s' => endswith_sep s'
  end.

(** [os.path.join(a, b)] *)
Definition join (a b : string) : string :=
  if startswith_sep b then b
  else if negb (truthy a) || endswith_sep a then a +:+ b
  else a +:+ "/" +:+ b.

(** [p[:p.rfind('/') + 1]] *)
Fixpoint head_upto_sep (p : string) : string :=
  match p with
  | "" => ""
  | String c p' =>
      match head_upto_sep p' with
      | "" => if Ascii.eqb c sep then "/" else ""
      | h => String c h
      end
  end.

Fixpoint all_sep (s : string) : bool :=
  match s with
  | "" => true
  | String c s' => Ascii.eqb c sep && all_sep s'
  end.

(** [os.path.dirname(p)] *)
Definition dirname (p : string) : string :=
  let head := head_upto_sep p in
  if truthy head && negb (all_sep head)
  then rstrip (λ c, Ascii.eqb c sep) head
  else head.

End Py.

(** ** [main.py]: the sanitised tag of a characteristic name *)

(** The character class of [_BAD]: backslash, slash, colon, star, question
    mark, double quote, angle brackets and bar. *)
Definition _BAD (c : ascii) : bool :=
  let n := nat_of_ascii c in
  ((n =? 92) || (n =? 47) || (n =? 58) || (n =? 42) || (n =? 63)
   || (n =? 34) || (n =? 60) || (n =? 62) || (n =? 124))%nat.

Definition dot_or_underscore (c : ascii) : bool :=
  Ascii.eqb c "."%char || Ascii.eqb c "_"%char.

Definition _safe_tag (name : string) : string :=
  let s := Py.re_sub _BAD "_" name in
  let s := Py.re_sub Py.isspace "_" s in
  let s := Py.or_else (Py.take 80 (Py.strip_chars dot_or_underscore s)) "value" in
  s.

(** ** Exceptions and results *)

Inductive ExnKind :=
| AssertionError | KeyError | ValueError | FileNotFoundError
| ParserError | ExternalError.

(** An exception, of a subclass of [Exception]: its class and [str(e)]. *)
Record exn := Exception { kind : ExnKind; str : string }.

Inductive result (A : Type) : Type :=
| Ok (a : A)
| Raise (e : exn).
Arguments Ok {A} a.
Arguments Raise {A} e.

(** ** Tables, figures and files *)

(** A CSV cell that is present: its text, what [pd.to_numeric(..,
    errors='coerce')] reads from it ([None] is NaN; the numbers are the
    finite ones, an infinite value is not modelled) and what
    [pd.to_datetime] reads from it ([None]: the parser raises). *)
Record Cell := { text : string; numeric : option Q; datetime : option Z }.

(** The two cells of a record the pipeline reads; [None] is a missing value
    (NaN), also when the table has no such column. *)
Record Row := {
  ActivityStartDate : option Cell;
  ResultMeasureValue : option Cell
}.

(** A parsed table: the names of its header, and its records. *)
Record DataFrame := { columns : list string; rows : list Row }.

(** What [create_chart] hands to plotly: the line series, the pinned range
    of the value axis ([None] is NaN) and the fixed layout. *)
Record Figure := {
  title : string;
  x : list Z;
  y : list Q;
  yaxis_range : option Q * option Q;
  mode : string;
  width : nat;
  height : nat
}.

Inductive File :=
| CsvFile (df : DataFrame)
| HtmlFile (fig : Figure)
| OtherFile (bytes : string).

(** ** The job state of [web_server.py] *)

Inductive Status := Idle | Running | Completed | Error.

Record JobState := {
  status : Status;
  message : string;
  progress : Q;
  total_characteristics : nat;
  completed_charts : nat;
  current_scenario : string;
  error_message : string
}.

(** The arguments of one call of [update_analysis_status]. *)
Record Update := {
  u_status : option Status;
  u_message : option string;
  u_progress : option Q;
  u_total_characteristics : option nat;
  u_completed_charts : option nat
}.

(** ** Process state, environment and the monad *)

(** What the process did, in order (newest first); kept for the statements
    only, no function reads it. *)
Inductive Event :=
| EvUpdate (u : Update)
| EvIndexBuild (texts : list string)
| EvThreadStart (scenario : string).

Record Sys := {
  analysis_state : JobState;
  fs : gmap string File;
  (** the documents persisted in [chroma_values_store] *)
  vectorstore : list string;
  (** the number of calls made to the outside so far *)
  clock : nat;
  trace : list Event
}.

Record Response := { status_code : Z; content : File }.

(** The outside of the process.  The oracles take the value of [clock] at
    the call, so that two calls with the same arguments may differ. *)
Record World := {
  cwd : string;
  (** [requests.get] for a characteristic name and a start date *)
  http_get : nat → string → string → result Response;
  (** the ["value"] entries of [values_filtered.json], or what reading it
      raises *)
  values_filtered_json : result (list string);
  (** the lines of [invalid.txt], when the file exists *)
  invalid_txt : option (list string);
  OPENAI_API_KEY : option string;
  (** what embedding the texts raises, if anything *)
  embed : nat → list string → option exn;
  (** the nearest documents of the store for a query and [k] *)
  similarity_search : nat → list string → string → nat → result (list string)
}.

Definition M (A : Type) : Type := Sys → result A * Sys.

Definition ret {A} (a : A) : M A := λ s, (Ok a, s).
Definition raise {A} (e : exn) : M A := λ s, (Raise e, s).
Definition bind {A B} (m : M A) (k : A → M B) : M B := λ s,
  match m s with
  | (Ok a, s') => k a s'
  | (Raise e, s') => (Raise e, s')
  end.
(** [try: m  except: h] *)
Definition try_except {A} (m : M A) (h : exn → M A) : M A := λ s,
  match m s with
  | (Raise e, s') => h e s'
  | r => r
  end.
Definition lift {A} (r : result A) : M A := λ s, (r, s).
Definition get : M Sys := λ s, (Ok s, s).
Definition modify (f : Sys → Sys) : M unit := λ s, (Ok tt, f s).

Notation "'let*' x ':=' m 'in' k" := (bind m (λ x, k))
  (at level 10, x name, m at level 100, k at level 200, only parsing).
Notation "m1 '>>>' m2" := (bind m1 (λ _, m2))
  (at level 90, right associativity, only parsing).

(** [assert c, msg] *)
Definition assert_ (c : bool) (msg : string) : M unit :=
  if c then ret tt else raise (Exception AssertionError msg).

Definition set_fs (f : gmap string File → gmap string File) (s : Sys) : Sys :=
  {| analysis_state := analysis_state s; fs := f (fs s);
     vectorstore := vectorstore s; clock := clock s; trace := trace s |}.
Definition set_job (f : JobState → JobState) (s : Sys) : Sys :=
  {| analysis_state := f (analysis_state s); fs := fs s;
     vectorstore := vectorstore s; clock := clock s; trace := trace s |}.
Definition set_vectorstore (f : list string → list string) (s : Sys) : Sys :=
  {| analysis_state := analysis_state s; fs := fs s;
     vectorstore := f (vectorstore s); clock := clock s; trace := trace s |}.
Definition log (e : Event) (s : Sys) : Sys :=
  {| analysis_state := analysis_state s; fs := fs s;
     vectorstore := vectorstore s; clock := clock s; trace := e :: trace s |}.
(** The time of an outside call; the clock advances. *)
Definition tick : M nat := λ s,
  (Ok (clock s),
   {| analysis_state := analysis_state s; fs := fs s;
      vectorstore := vectorstore s; clock := S (clock s); trace := trace s |}).

(** *** Files *)

Definition os_path_exists (path : string) : M bool := λ s,
  (Ok (bool_decide (is_Some (fs s !! path))), s).

Definition os_remove (path : string) : M unit := λ s,
  match fs s !! path with
  | Some _ => (Ok tt, set_fs (delete path) s)
  | None => (Raise (Exception FileNotFoundError path), s)
  end.

Definition write_file (path : string) (f : File) : M unit :=
  modify (set_fs (insert path f)).

(** *** pandas *)

(** [pd.read_csv(path)] *)
Definition read_csv (path : string) : M DataFrame := λ s,
  match fs s !! path with
  | Some (CsvFile df) => (Ok df, s)
  | Some _ => (Raise (Exception ParserError "Error tokenizing data"), s)
  | None => (Raise (Exception FileNotFoundError path), s)
  end.

(** The columns of the file kept by [usecols=keep]: the header loses the
    other names; a [Row] holds no cell of another column. *)
Definition project (keep : string → bool) (df : DataFrame) : DataFrame :=
  {| columns := filter (λ c, keep c = true) (columns df); rows := rows df |}.

(** [df[[c for c in names if c in df.columns]]]: the columns come in the
    order of [names]. *)
Definition select (names : list string) (df : DataFrame) : DataFrame :=
  {| columns := filter (λ c, c ∈ columns df) names; rows := rows df |}.

(** [pd.read_csv(path, usecols=keep)] *)
Definition read_csv_usecols (path : string) (keep : string → bool) : M DataFrame :=
  let* df := read_csv path in ret (project keep df).

Definition notna (r : Row) : bool :=
  bool_decide (is_Some (ActivityStartDate r))
  && bool_decide (is_Some (ResultMeasureValue r)).

(** [repr] of a list of strings, as in the message of a pandas [KeyError]. *)
Fixpoint repr_items (l : list string) : string :=
  match l with
  | [] => ""
  | [a] => "'" +:+ a +:+ "'"
  | a :: l' => "'" +:+ a +:+ "', " +:+ repr_items l'
  end.
Definition repr_list (l : list string) : string := "[" +:+ repr_items l +:+ "]".

(** The two columns of interest, [cols] in [filter_results]. *)
Definition cols : list string := ["ActivityStartDate"; "ResultMeasureValue"].

(** [df.dropna(subset=["ActivityStartDate", "ResultMeasureValue"])]: the
    names of the subset that are no column are a [KeyError]; otherwise the
    records with a missing value in either column are dropped. *)
Definition dropna (df : DataFrame) : result DataFrame :=
  match filter (λ c, c ∉ columns df) cols with
  | [] => Ok {| columns := columns df;
                rows := filter (λ r, notna r = true) (rows df) |}
  | missing => Raise (Exception KeyError (repr_list missing))
  end.

(** [df.to_csv(path, index=False)].  A write into the file store always
    succeeds.  A write the disk refuses, after which [filter_results] would
    raise with the raw payload already removed, is outside the model. *)
Definition to_csv (df : DataFrame) (path : string) : M unit :=
  write_file path (CsvFile df).

(** [df[name]] for one of the two columns: a [KeyError] without the column. *)
Definition getitem (df : DataFrame) (name : string) : result (list Row) :=
  if bool_decide (name ∈ columns df) then Ok (rows df)
  else Raise (Exception KeyError ("'" +:+ name +:+ "'")).

(** [pd.to_datetime] on the date column: a missing value becomes NaT
    ([None]), a cell it cannot read raises. *)
Fixpoint to_datetime (rs : list Row) : result (list (option Z)) :=
  match rs with
  | [] => Ok []
  | r :: rs' =>
      match ActivityStartDate r with
      | None =>
          match to_datetime rs' with
          | Ok ds => Ok (None :: ds)
          | Raise e => Raise e
          end
      | Some c =>
          match datetime c with
          | Some d =>
              match to_datetime rs' with
              | Ok ds => Ok (Some d :: ds)
              | Raise e => Raise e
              end
          | None =>
              Raise (Exception ValueError ("Unknown datetime string format: " +:+ text c))
          end
      end
  end.

(** [pd.to_numeric(.., errors='coerce')] on the value column: a missing
    value and a cell that is no number become NaN ([None]). *)
Definition to_numeric (rs : list Row) : list (option Q) :=
  map (λ r, c ← ResultMeasureValue r; numeric c) rs.

(** [dropna] on the two converted columns. *)
Definition dropna_converted (ds : list (option Z)) (vs : list (option Q)) : list (Z * Q) :=
  omap (λ dv, d ← dv.1; v ← dv.2; Some (d, v)) (zip ds vs).

(** [df.sort_values('ActivityStartDate')].  pandas sorts with an unstable
    quicksort, so the order in which the code leaves records of one date is
    not fixed; here they keep their order.  The statements below speak of
    the sorted series up to that order only: as a permutation of the rows
    that is ascending by date. *)
Fixpoint insert_by_date (r : Z * Q) (l : list (Z * Q)) : list (Z * Q) :=
  match l with
  | [] => [r]
  | r' :: l' => if (r.1 <=? r'.1)%Z then r :: l else r' :: insert_by_date r l'
  end.
Definition sort_values (l : list (Z * Q)) : list (Z * Q) :=
  foldr insert_by_date [] l.

(** [Series.min()] and [Series.max()]: NaN ([None]) on an empty series. *)
Definition series_min (ys : list Q) : option Q :=
  match ys with
  | [] => None
  | y0 :: ys' => Some (foldl Qmin y0 ys')
  end.
Definition series_max (ys : list Q) : option Q :=
  match ys with
  | [] => None
  | y0 :: ys' => Some (foldl Qmax y0 ys')
  end.

Section Pipeline.

Variable W : World.

(** ** [main.py]: the filter *)

Definition filter_results (raw_path characteristicName : string) : M (option string) :=
  let safe := _safe_tag characteristicName in
  let ResponseDataFolder := Py.dirname raw_path in
  let filtered_path :=
    Py.join ResponseDataFolder ("filtered_result_" +:+ safe +:+ ".csv") in
  let* df :=
    try_except
      (read_csv_usecols raw_path (λ c, bool_decide (c ∈ cols)))
      (λ _, let* df := read_csv raw_path in
            ret (select cols df)) in
  let* df := lift (dropna df) in
  if (length (rows df) <=? 3)%nat then
    os_remove raw_path >>>
    ret None
  else
    os_remove raw_path >>>
    to_csv df filtered_path >>>
    ret (Some filtered_path).

(** ** [main.py]: the chart emitter *)

(** The path of the chart of a characteristic name. *)
Definition chart_path (characteristicName : string) : string :=
  Py.join (cwd W) ("chart_" +:+ _safe_tag characteristicName +:+ ".html").

Definition create_chart (characteristicName input_path : string) : M unit :=
  let* found := os_path_exists input_path in
  if negb found then ret tt
  else
    let* df := read_csv input_path in
    let* dates := lift (getitem df "ActivityStartDate") in
    let* dates := lift (to_datetime dates) in
    let* values := lift (getitem df "ResultMeasureValue") in
    let values := to_numeric values in
    let df := dropna_converted dates values in
    let df := sort_values df in
    let y_min := series_min df.*2 in
    let y_max := series_max df.*2 in
    let fig :=
      {| title := "Result Measure Value Over Time for " +:+ characteristicName;
         x := df.*1;
         y := df.*2;
         yaxis_range := (y_min, y_max);
         mode := "lines";
         width := 1200;
         height := 600 |} in
    write_file (chart_path characteristicName) (HtmlFile fig).

(** ** [main.py]: the fetcher *)

(** The path [fetch_API] writes the raw payload of a name to.  (The
    directory [ResponseData] is created on the way; directories are not
    part of the file store.) *)
Definition raw_path_of (inVar : string) : string :=
  let target_dir := Py.join (cwd W) "ResponseData" in
  let safe := _safe_tag inVar in
  let filename := "result_" +:+ safe +:+ ".csv" in
  Py.join target_dir filename.

Definition requests_get (inVar inVar2 : string) : M Response :=
  let* t := tick in lift (http_get W t inVar inVar2).

Definition fetch_API (inVar inVar2 : string) : M string :=
  let raw_path := raw_path_of inVar in
  let* response := requests_get inVar inVar2 in
  if negb (status_code response =? 200)%Z then ret ""
  else
    write_file raw_path (content response) >>>
    ret raw_path.

(** ** [main.py]: the semantic retriever *)

(** [Chroma.from_texts(values, embeddings, persist_directory=..)]: the texts
    are embedded and added to the persisted collection. *)
Definition Chroma_from_texts (values : list string) : M unit :=
  let* t := tick in
  match embed W t values with
  | Some e => raise e
  | None =>
      modify (set_vectorstore (λ docs, (docs ++ values)%list)) >>>
      modify (log (EvIndexBuild values))
  end.

Definition find_related (scene : string) (top_n : nat) : M (list string) :=
  let* t := tick in
  let* s := get in
  lift (similarity_search W t (vectorstore s) scene top_n).

Definition search (inVar : string) : M (list string) :=
  let* values := lift (values_filtered_json W) in
  assert_ (bool_decide (values ≠ []))
    "values_filtered.json has no 'codes' or is empty" >>>
  let invalid_values :=
    match invalid_txt W with
    | Some lines => filter (λ l, l ≠ "") (map Py.strip lines)
    | None => []
    end in
  let values := filter (λ v, v ∉ invalid_values) values in
  assert_ (bool_decide (values ≠ [])) "No valid values remaining after filtering" >>>
  let api_key := default "" (OPENAI_API_KEY W) in
  assert_ (Py.truthy api_key) "OPENAI_API_KEY not set" >>>
  Chroma_from_texts values >>>
  let scene := inVar in
  let* results := find_related scene 20 in
  ret results.

End Pipeline.

(** ** [web_server.py]: the job state and the orchestrator *)

(** [analysis_state] at import time, and after [reset_analysis_state]. *)
Definition initial_state : JobState :=
  {| status := Idle;
     message := "Ready to analyze";
     progress := 0;
     total_characteristics := 0;
     completed_charts := 0;
     current_scenario := "";
     error_message := "" |}.

Definition reset_analysis_state : M unit :=
  modify (set_job (λ _, initial_state)).

(** The assignments of [update_analysis_status]: [status] and [message] are
    tested for truth, the other three against [None]. *)
Definition apply_update (u : Update) (j : JobState) : JobState :=
  {| status := default (status j) (u_status u);
     message :=
       match u_message u with
       | Some m => if Py.truthy m then m else message j
       | None => message j
       end;
     progress := default (progress j) (u_progress u);
     total_characteristics :=
       default (total_characteristics j) (u_total_characteristics u);
     completed_charts := default (completed_charts j) (u_completed_charts u);
     current_scenario := current_scenario j;
     error_message := error_message j |}.

Definition update_analysis_status (status : option Status)
    (message : option string) (progress : option Q)
    (total_characteristics completed_charts : option nat) : M unit :=
  let u := {| u_status := status; u_message := message; u_progress := progress;
              u_total_characteristics := total_characteristics;
              u_completed_charts := completed_charts |} in
  modify (λ s, log (EvUpdate u) (set_job (apply_update u) s)).

(** A Python [int] in float arithmetic; the quotients are exact here. *)
Definition num (n : nat) : Q := inject_Z (Z.of_nat n).

Section Orchestrator.

Variable W : World.

(** The body of the loop of [run_analysis] for the candidate of index [i];
    the result is the value of [completed] when the body is left, by its end,
    by [continue] or by the handler. *)
Definition candidate (total_chars i : nat) (characteristic : string)
    (completed : nat) : M nat :=
  try_except
    (update_analysis_status None
       (Some ("STEP 1: Fetching data for " +:+ characteristic))
       (Some (15 + (num i * 80 / num total_chars / 3))%Q) None None >>>
     let* raw_path := fetch_API W characteristic "01-01-1980" in
     if negb (Py.truthy raw_path) then ret completed
     else
       update_analysis_status None
         (Some ("STEP 2: Filtering data for " +:+ characteristic))
         (Some (15 + ((num i * 80 / num total_chars / 3)
                      + (80 / num total_chars / 3)))%Q) None None >>>
       let* filtered_path := filter_results raw_path characteristic in
       match filtered_path with
       | None => ret completed
       | Some filtered_path =>
           if negb (Py.truthy filtered_path) then ret completed
           else
             update_analysis_status None
               (Some ("STEP 3: Creating chart for " +:+ characteristic))
               (Some (15 + ((num i * 80 / num total_chars / 3)
                            + (2 * 80 / num total_chars / 3)))%Q) None None >>>
             create_chart W characteristic filtered_path >>>
             let completed := S completed in
             update_analysis_status None None
               (Some (15 + (num (i + 1) * 80 / num total_chars))%Q)
               None (Some completed) >>>
             ret completed
       end)
    (λ e, ret completed).

(** [for i, characteristic in enumerate(results_list)], from index [i]. *)
Fixpoint for_candidates (total_chars i : nat) (results_list : list string)
    (completed : nat) : M nat :=
  match results_list with
  | [] => ret completed
  | characteristic :: rest =>
      let* completed := candidate total_chars i characteristic completed in
      for_candidates total_chars (S i) rest completed
  end.

Definition run_analysis (scenario : string) : M unit :=
  try_except
    (update_analysis_status (Some Running)
       (Some "Creating chroma value storage...") (Some 5%Q) None None >>>
     let* results_list := search W scenario in
     let total_chars := length results_list in
     update_analysis_status None
       (Some ("Found " +:+ pretty total_chars +:+ " related characteristics"))
       (Some 15%Q) (Some total_chars) None >>>
     let completed := 0%nat in
     let* completed := for_candidates total_chars 0 results_list completed in
     update_analysis_status (Some Completed)
       (Some ("Analysis completed! Generated " +:+ pretty completed +:+ " charts."))
       (Some 100%Q) None None)
    (λ e,
     update_analysis_status (Some Error)
       (Some ("Analysis failed: " +:+ str e)) (Some 0%Q) None None).

End Orchestrator.

(** ** [web_server.py]: the start request *)

(** The JSON body of a request to [/analyze]: its ["scenario"] entry, a
    string, if it has one. *)
Record Request := { scenario : option string }.

(** A JSON answer and its HTTP status. *)
Record Reply := { body : list (string * string); http_status : nat }.

(** [threading.Thread(target=run_analysis, args=(scenario,)).start()]: the
    run is handed to a thread of its own; the request does not wait for it. *)
Definition thread_start (scenario : string) : M unit :=
  modify (log (EvThreadStart scenario)).

Definition set_current_scenario (scenario : string) (j : JobState) : JobState :=
  {| status := status j; message := message j; progress := progress j;
     total_characteristics := total_characteristics j;
     completed_charts := completed_charts j;
     current_scenario := scenario;
     error_message := error_message j |}.

Definition analyze (request : Request) : M Reply :=
  let* s := get in
  match status (analysis_state s) with
  | Running =>
      ret {| body := [("error", "Analysis already in progress")];
             http_status := 400 |}
  | _ =>
      let scenario := Py.strip (default "" (scenario request)) in
      if negb (Py.truthy scenario) then
        ret {| body := [("error", "No scenario provided")]; http_status := 400 |}
      else
        reset_analysis_state >>>
        modify (set_job (set_current_scenario scenario)) >>>
        thread_start scenario >>>
        ret {| body := [("message", "Analysis started"); ("scenario", scenario)];
               http_status := 200 |}
  end.

(** ** [main.py]: the command line *)

Section CommandLine.

Variable W : World.

(** The body of the loop of [__init__] for the candidate [i]; [continue]
    leaves it.  No exception is caught here. *)
Definition init_body (i : string) : M unit :=
  let* raw_path := fetch_API W i "01-01-1980" in
  if negb (Py.truthy raw_path) then ret tt
  else
    let* filtered_path := filter_results raw_path i in
    match filtered_path with
    | None => ret tt
    | Some filtered_path =>
        if negb (Py.truthy filtered_path) then ret tt
        else create_chart W i filtered_path
    end.

(** [for i in results_list] *)
Fixpoint for_results (results_list : list string) : M unit :=
  match results_list with
  | [] => ret tt
  | i :: rest => init_body i >>> for_results rest
  end.

(** [__init__()]; [scenario] is the line [input] has read. *)
Definition __init__ (scenario : string) : M unit :=
  let* results_list := search W scenario in
  for_results results_list.

End CommandLine.

(** ** [dev_archive/validate_values.py]: the validation of a payload *)

(** [pd.read_csv(path, usecols=keep)] gives a frame without rows when it
    keeps no column.  ([filter_results] cannot tell: its [dropna] raises on
    a frame without columns, whatever the rows.) *)
Definition read_frame (df : DataFrame) : DataFrame :=
  match columns df with
  | [] => {| columns := []; rows := [] |}
  | _ => df
  end.

(** [validate_numeric_data]; the [None] of the two reads is the
    [return False] of the inner handler.  Nothing is written. *)
Definition validate_numeric_data (raw_path characteristicName : string) : M bool :=
  let* read :=
    try_except
      (let* df := read_csv_usecols raw_path (λ c, bool_decide (c ∈ cols)) in
       ret (Some (read_frame df)))
      (λ _, try_except
              (let* df := read_csv raw_path in
               ret (Some (select cols df)))
              (λ _, ret None)) in
  match read with
  | None => ret false
  | Some df =>
      if (length (rows df) =? 0)%nat then ret false
      else
        let* df := lift (dropna df) in
        if (length (rows df) =? 0)%nat then ret false
        else
          let* values := lift (getitem df "ResultMeasureValue") in
          let values := to_numeric values in
          let df_numeric := filter (λ v, is_Some v) values in
          if (length df_numeric <=? 3)%nat then ret false
          else ret true
  end.

(** * Definitions for the statements *)

(** ** Tables and figures *)

(** A table that carries both fields of a record of the data model. *)
Definition carries_both_fields (df : DataFrame) : Prop :=
  "ActivityStartDate" ∈ columns df ∧ "ResultMeasureValue" ∈ columns df.

Definition keep_cols (c : string) : bool := bool_decide (c ∈ cols).

Definition filtered_path_of (raw_path characteristicName : string) : string :=
  Py.join (Py.dirname raw_path)
    ("filtered_result_" +:+ _safe_tag characteristicName +:+ ".csv").

(** The rows left by the filter of a payload. *)
Definition remaining (payload : DataFrame) : list Row :=
  filter (λ r, notna r = true) (rows payload).

Definition date_le (r r' : Z * Q) : Prop := (r.1 ≤ r'.1)%Z.

(** The figure [create_chart] builds from the sorted series. *)
Definition figure_of (characteristicName : string) (df : list (Z * Q)) : Figure :=
  {| title := "Result Measure Value Over Time for " +:+ characteristicName;
     x := df.*1;
     y := df.*2;
     yaxis_range := (series_min df.*2, series_max df.*2);
     mode := "lines";
     width := 1200;
     height := 600 |}.

(** The rows that survive the conversions of [create_chart]. *)
Definition coerced (df : DataFrame) (ds : list (option Z)) : list (Z * Q) :=
  dropna_converted ds (to_numeric (rows df)).

(** ** Concrete tables, worlds and states *)

Definition date_cell (t : string) (d : Z) : Cell :=
  {| text := t; numeric := None; datetime := Some d |}.

Definition number_cell (t : string) (v : Q) : Cell :=
  {| text := t; numeric := Some v; datetime := None |}.

Definition text_cell (t : string) : Cell :=
  {| text := t; numeric := None; datetime := None |}.

Definition record (d v : Cell) : Row :=
  {| ActivityStartDate := Some d; ResultMeasureValue := Some v |}.

(** Five records, one without a date, one with a value that is no number. *)
Definition ph_payload : DataFrame :=
  {| columns := ["OrganizationIdentifier"; "ActivityStartDate"; "ResultMeasureValue"];
     rows :=
       [ record (date_cell "2001-05-01" 11443) (number_cell "7.1" (71 # 10));
         record (date_cell "1999-03-02" 10652) (number_cell "6.9" (69 # 10));
         {| ActivityStartDate := None;
            ResultMeasureValue := Some (number_cell "7.3" (73 # 10)) |};
         record (date_cell "2000-01-01" 10957) (text_cell "ND");
         record (date_cell "1998-07-04" 10411) (number_cell "7" 7);
         record (date_cell "1998-07-05" 10412) (number_cell "8" 8) ] |}.

(** Four records whose values are all the text [ND]. *)
Definition nd_series : DataFrame :=
  {| columns := cols;
     rows :=
       [ record (date_cell "2001-05-01" 11443) (text_cell "ND");
         record (date_cell "1999-03-02" 10652) (text_cell "ND");
         record (date_cell "2000-01-01" 10957) (text_cell "ND");
         record (date_cell "1998-07-04" 10411) (text_cell "ND") ] |}.

Definition gulf : World :=
  {| cwd := "/srv/gulf";
     http_get := λ _ _ _, Ok {| status_code := 200; content := CsvFile ph_payload |};
     values_filtered_json := Ok ["pH"; "Turbidity"; "Lead"];
     invalid_txt := Some ["Lead"; ""];
     OPENAI_API_KEY := Some "sk-test";
     embed := λ _ _, None;
     similarity_search := λ _ docs _ k, Ok (take k docs) |}.

Definition start_of_process (files : gmap string File) : Sys :=
  {| analysis_state := initial_state; fs := files; vectorstore := [];
     clock := 0; trace := [] |}.

Definition raw_ph : string := "/srv/gulf/ResponseData/result_pH.csv".

Definition filtered_ph : string := "/srv/gulf/ResponseData/filtered_result_pH.csv".

Definition chart_ph : string := "/srv/gulf/chart_pH.html".

(** ** The start request *)

(** The empty string and the strings made of whitespace only. *)
Fixpoint whitespace_only (s : string) : bool :=
  match s with
  | "" => true
  | String c s' => Py.isspace c && whitespace_only s'
  end.

Definition already_running : Reply :=
  {| body := [("error", "Analysis already in progress")]; http_status := 400 |}.

Definition no_scenario : Reply :=
  {| body := [("error", "No scenario provided")]; http_status := 400 |}.

Definition started (scenario : string) : Reply :=
  {| body := [("message", "Analysis started"); ("scenario", scenario)];
     http_status := 200 |}.

(** The state a start request leaves when it is accepted: the job state is
    reset, the scenario recorded, and the run handed to a thread. *)
Definition accepted (scenario : string) (s : Sys) : Sys :=
  log (EvThreadStart scenario)
    (set_job (λ _, set_current_scenario scenario initial_state) s).

(** A state whose last run is finished. *)
Definition after_a_run : Sys :=
  {| analysis_state :=
       {| status := Completed;
          message := "Analysis completed! Generated 2 charts.";
          progress := 100;
          total_characteristics := 2;
          completed_charts := 2;
          current_scenario := "oil spill";
          error_message := "" |};
     fs := ∅; vectorstore := ["pH"; "Turbidity"]; clock := 4; trace := [] |}.

(** ** Traces and updates *)

(** The calls of [update_analysis_status] of a trace, newest first. *)
Definition updates (t : list Event) : list Update :=
  omap (λ e, match e with EvUpdate u => Some u | _ => None end) t.

(** The index builds of a trace, newest first. *)
Definition index_builds (t : list Event) : list (list string) :=
  omap (λ e, match e with EvIndexBuild texts => Some texts | _ => None end) t.

(** A computation is quiet when it leaves the job state alone and calls
    [update_analysis_status] never. *)
Definition quiet {A} (m : M A) : Prop :=
  ∀ s, analysis_state (m s).2 = analysis_state s
       ∧ updates (trace (m s).2) = updates (trace s).

(** The names of [invalid.txt]. *)
Definition invalid_values (W : World) : list string :=
  match invalid_txt W with
  | Some lines => filter (λ l, l ≠ "") (map Py.strip lines)
  | None => []
  end.

(** The four calls of [update_analysis_status] in the body of the loop, for
    the candidate of index [i]; the last one reports the new count. *)
Definition step1 (total_chars i : nat) (characteristic : string) : Update :=
  {| u_status := None;
     u_message := Some ("STEP 1: Fetching data for " +:+ characteristic);
     u_progress := Some (15 + (num i * 80 / num total_chars / 3))%Q;
     u_total_characteristics := None; u_completed_charts := None |}.

Definition step2 (total_chars i : nat) (characteristic : string) : Update :=
  {| u_status := None;
     u_message := Some ("STEP 2: Filtering data for " +:+ characteristic);
     u_progress := Some (15 + ((num i * 80 / num total_chars / 3)
                               + (80 / num total_chars / 3)))%Q;
     u_total_characteristics := None; u_completed_charts := None |}.

Definition step3 (total_chars i : nat) (characteristic : string) : Update :=
  {| u_status := None;
     u_message := Some ("STEP 3: Creating chart for " +:+ characteristic);
     u_progress := Some (15 + ((num i * 80 / num total_chars / 3)
                               + (2 * 80 / num total_chars / 3)))%Q;
     u_total_characteristics := None; u_completed_charts := None |}.

Definition charted (total_chars i completed : nat) : Update :=
  {| u_status := None;
     u_message := None;
     u_progress := Some (15 + (num (i + 1) * 80 / num total_chars))%Q;
     u_total_characteristics := None; u_completed_charts := Some completed |}.

Definition stage_updates (total_chars i : nat) (characteristic : string)
    (completed : nat) : list Update :=
  [ step1 total_chars i characteristic; step2 total_chars i characteristic;
    step3 total_chars i characteristic; charted total_chars i (S completed) ].

(** The updates a candidate may leave: its first one always, then the
    first few of the other three. *)
Definition candidate_segment (total_chars : nat) (ic : nat * string)
    (seg : list Update) : Prop :=
  ∃ seg' completed,
    seg = step1 total_chars ic.1 ic.2 :: seg'
    ∧ seg' `prefix_of` [ step2 total_chars ic.1 ic.2; step3 total_chars ic.1 ic.2;
                         charted total_chars ic.1 completed ].

(** A state [s'] comes from [s] by the updates [us], oldest first, and by
    quiet steps. *)
Definition updated_by (us : list Update) (s s' : Sys) : Prop :=
  analysis_state s' = foldl (flip apply_update) (analysis_state s) us
  ∧ updates (trace s') = rev us ++ updates (trace s).

(** The state after a call of [update_analysis_status]. *)
Definition after_update (u : Update) (s : Sys) : Sys :=
  log (EvUpdate u) (set_job (apply_update u) s).

(** A computation whose updates are the first few of [full], in order. *)
Definition emits_prefix {A} (full : list Update) (m : M A) : Prop :=
  ∀ s, ∃ seg, seg `prefix_of` full ∧ updated_by seg s (m s).2.

(** The candidates of a list with their indices, from [i]. *)
Definition indexed (i : nat) (results_list : list string) : list (nat * string) :=
  zip (seq i (length results_list)) results_list.

(** The updates of [run_analysis] outside the loop. *)
Definition run_started : Update :=
  {| u_status := Some Running;
     u_message := Some "Creating chroma value storage...";
     u_progress := Some 5%Q;
     u_total_characteristics := None; u_completed_charts := None |}.

Definition found (total_chars : nat) : Update :=
  {| u_status := None;
     u_message := Some ("Found " +:+ pretty total_chars +:+ " related characteristics");
     u_progress := Some 15%Q;
     u_total_characteristics := Some total_chars; u_completed_charts := None |}.

Definition run_completed (completed : nat) : Update :=
  {| u_status := Some Completed;
     u_message :=
       Some ("Analysis completed! Generated " +:+ pretty completed +:+ " charts.");
     u_progress := Some 100%Q;
     u_total_characteristics := None; u_completed_charts := None |}.

Definition run_failed (e : exn) : Update :=
  {| u_status := Some Error;
     u_message := Some ("Analysis failed: " +:+ str e);
     u_progress := Some 0%Q;
     u_total_characteristics := None; u_completed_charts := None |}.

(** The retriever as [run_analysis] calls it: after the first update. *)
Definition retrieval (W : World) (scenario : string) (s : Sys) :
    result (list string) :=
  (search W scenario (after_update run_started s)).1.

(** The values written to [progress] by a list of updates. *)
Definition progress_writes (us : list Update) : list Q := omap u_progress us.

(** ** Two more worlds *)

(** A world whose provider cannot be reached for [pH] and answers for the
    other names. *)
Definition gulf_without_ph : World :=
  {| cwd := cwd gulf;
     http_get := λ t name date,
       if bool_decide (name = "pH")
       then Raise (Exception ExternalError "Connection refused")
       else http_get gulf t name date;
     values_filtered_json := values_filtered_json gulf;
     invalid_txt := invalid_txt gulf;
     OPENAI_API_KEY := OPENAI_API_KEY gulf;
     embed := embed gulf;
     similarity_search := similarity_search gulf |}.

(** A world without the API key of the embedding provider. *)
Definition gulf_without_key : World :=
  {| cwd := cwd gulf;
     http_get := http_get gulf;
     values_filtered_json := values_filtered_json gulf;
     invalid_txt := invalid_txt gulf;
     OPENAI_API_KEY := None;
     embed := embed gulf;
     similarity_search := similarity_search gulf |}.

(** ** Strings and tags *)

(** Every character of a string satisfies [p]. *)
Fixpoint string_forall (p : ascii → bool) (s : string) : bool :=
  match s with
  | "" => true
  | String c s' => p c && string_forall p s'
  end.

Definition first_char (s : string) : option ascii :=
  match s with
  | "" => None
  | String c _ => Some c
  end.

Fixpoint last_char (s : string) : option ascii :=
  match s with
  | "" => None
  | String c "" => Some c
  | String _ s' => last_char s'
  end.

(** A character that is neither of the class [_BAD] nor whitespace. *)
Definition plain_char (c : ascii) : bool := negb (_BAD c) && negb (Py.isspace c).

(** The end of a string is neither a dot nor an underscore. *)
Definition clean_end (o : option ascii) : bool :=
  match o with
  | Some c => negb (dot_or_underscore c)
  | None => true
  end.

(** A name that needs no sanitising: not empty, 80 characters at most, made
    of plain characters, with no dot or underscore at either end. *)
Definition already_safe (s : string) : bool :=
  Py.truthy s && (String.length s <=? 80) && string_forall plain_char s
  && clean_end (first_char s) && clean_end (last_char s).

(** ** Paths of the pipeline *)

(** A character that is not the path separator. *)
Definition not_sep (c : ascii) : bool := negb (Ascii.eqb c Py.sep).

(** [target_dir] in [fetch_API]. *)
Definition ResponseData (W : World) : string := Py.join (cwd W) "ResponseData".


(** ** More concrete tables *)

(** A cleaned series with a date [pd.to_datetime] cannot read. *)
Definition broken_series : DataFrame :=
  {| columns := cols;
     rows := [ record (text_cell "spring 2001") (number_cell "7.1" (71 # 10)) ] |}.

(** ** The retriever *)

(** What [search] needs before it calls the outside: a catalog that can be
    read and is not empty once the names of [invalid.txt] are left out, and
    an API key. *)
Definition configured (W : World) : Prop :=
  ∃ values,
    values_filtered_json W = Ok values
    ∧ filter (λ v, v ∉ invalid_values W) values ≠ []
    ∧ Py.truthy (default "" (OPENAI_API_KEY W)) = true.

(** A similarity search that answers with documents of the store, [k] at
    most. *)
Definition searches_the_store (W : World) : Prop :=
  ∀ t docs query k results,
    similarity_search W t docs query k = Ok results →
    results ⊆ docs ∧ length results ≤ k.

(** ** The job state along a run *)

(** The job state after the updates [us], oldest first. *)
Definition job_after (j : JobState) (us : list Update) : JobState :=
  foldl (flip apply_update) j us.

(** What holds of the result of a computation and of the job state it
    leaves, from every state whose job state is [j]. *)
Definition job_post {A} (m : M A) (Q : result A → JobState → Prop)
    (j : JobState) : Prop :=
  ∀ s, analysis_state s = j → Q (m s).1 (analysis_state (m s).2).

(** ** The command line and the server *)

(** Two states with the same files, the same vector store and the same
    clock; they may differ in the job state and in the trace. *)
Definition same_artifacts (s t : Sys) : Prop :=
  fs s = fs t ∧ vectorstore s = vectorstore t ∧ clock s = clock t.

(** A computation that reads neither the job state nor the trace: from
    states with the same artifacts it gives the same result and states with
    the same artifacts. *)
Definition blind {A} (m : M A) : Prop :=
  ∀ s t, same_artifacts s t →
    (m s).1 = (m t).1 ∧ same_artifacts (m s).2 (m t).2.

(** ** The validation and the pipeline *)

(** The number of rows of a payload that have a date and a value that
    reads as a number. *)
Definition numeric_points (payload : DataFrame) : nat :=
  length (filter (λ v : option Q, is_Some v) (to_numeric (remaining payload))).

(** * Properties *)

(** ** The string helpers on examples *)

Example safe_tag_ex1 : _safe_tag "Dissolved oxygen (DO)" = "Dissolved_oxygen_(DO)".
Proof. reflexivity. Qed.
Example safe_tag_ex2 : _safe_tag "a/:b  c." = "a_b_c".
Proof. reflexivity. Qed.
Example safe_tag_ex3 : _safe_tag "???" = "value".
Proof. reflexivity. Qed.
Example dirname_ex1 : Py.dirname "/srv/app/ResponseData/result_pH.csv" = "/srv/app/ResponseData".
Proof. reflexivity. Qed.
Example dirname_ex2 : Py.dirname "//x" = "//".
Proof. reflexivity. Qed.
Example join_ex1 : Py.join "/srv/app" "ResponseData" = "/srv/app/ResponseData".
Proof. reflexivity. Qed.

(** ** The filter *)

Lemma dropna_carries df :
  carries_both_fields df →
  dropna df = Ok {| columns := columns df;
                    rows := filter (λ r, notna r = true) (rows df) |}.
Proof.
  intros [Hd Hv]. unfold dropna, cols.
  rewrite !filter_cons, filter_nil.
  rewrite !decide_False by (intros H; apply H; assumption).
  reflexivity.
Qed.

Lemma dropna_lacks df :
  ¬ carries_both_fields df → ∃ e, dropna df = Raise e ∧ kind e = KeyError.
Proof.
  intros Hn. unfold dropna, cols.
  rewrite !filter_cons, filter_nil.
  destruct (decide ("ActivityStartDate" ∉ columns df)) as [H1|H1];
    [eexists; split; [reflexivity|reflexivity] |].
  destruct (decide ("ResultMeasureValue" ∉ columns df)) as [H2|H2];
    [eexists; split; [reflexivity|reflexivity] |].
  exfalso. apply Hn. split.
  - destruct (decide ("ActivityStartDate" ∈ columns df)); [assumption | contradiction].
  - destruct (decide ("ResultMeasureValue" ∈ columns df)); [assumption | contradiction].
Qed.

Lemma project_carries df :
  carries_both_fields df → carries_both_fields (project (λ c, bool_decide (c ∈ cols)) df).
Proof.
  intros [Hd Hv]. unfold carries_both_fields, project, cols. simpl.
  split; apply list_elem_of_filter; (split; [ apply bool_decide_eq_true; set_solver | assumption]).
Qed.

Lemma filter_results_eq s raw_path name payload :
  fs s !! raw_path = Some (CsvFile payload) →
  carries_both_fields payload →
  filter_results raw_path name s =
    if (length (remaining payload) <=? 3)%nat
    then (Ok None, set_fs (delete raw_path) s)
    else (Ok (Some (filtered_path_of raw_path name)),
          set_fs (λ m, <[filtered_path_of raw_path name :=
                          CsvFile {| columns := filter (λ c, keep_cols c = true) (columns payload);
                                     rows := remaining payload |}]> (delete raw_path m)) s).
Proof.
  intros Hfile Hcols.
  unfold filter_results, try_except, read_csv_usecols, bind, read_csv, lift.
  rewrite Hfile. cbn [ret].
  rewrite (dropna_carries _ (project_carries _ Hcols)). cbn [rows project columns].
  fold (remaining payload).
  destruct (length (remaining payload) <=? 3)%nat.
  - unfold os_remove, ret. rewrite Hfile. reflexivity.
  - unfold os_remove, ret, to_csv, write_file, modify. rewrite Hfile. reflexivity.
Qed.

(** ** Sorting and the observed range *)

Lemma insert_by_date_perm r l : insert_by_date r l ≡ₚ r :: l.
Proof.
  induction l as [|r' l IH]; simpl; [done|].
  destruct (r.1 <=? r'.1)%Z; [done|].
  rewrite IH. apply Permutation_swap.
Qed.

Lemma sort_values_perm l : sort_values l ≡ₚ l.
Proof.
  induction l as [|r l IH]; simpl; [done|].
  rewrite insert_by_date_perm. by f_equiv.
Qed.

Lemma insert_by_date_sorted r l :
  StronglySorted date_le l → StronglySorted date_le (insert_by_date r l).
Proof.
  induction 1 as [|r' l Hs IH Hall]; simpl.
  - repeat constructor.
  - destruct (Z.leb_spec r.1 r'.1) as [Hle|Hlt].
    + constructor; [by constructor|].
      constructor; [done|].
      eapply Forall_impl; [exact Hall|]. unfold date_le. intros; lia.
    + constructor; [exact IH|].
      rewrite insert_by_date_perm. constructor; [unfold date_le; lia | done].
Qed.

Lemma sort_values_sorted l : StronglySorted date_le (sort_values l).
Proof.
  induction l as [|r l IH]; simpl; [constructor|].
  by apply insert_by_date_sorted.
Qed.

Lemma sorted_dates l : StronglySorted date_le l → StronglySorted Z.le l.*1.
Proof.
  induction 1 as [|r l Hs IH Hall]; simpl; constructor; [done|].
  apply Forall_fmap. exact Hall.
Qed.

(** What the order among records of one date can change.  Whatever sort
    the code runs, its result is a permutation of the rows that is
    ascending by date: its column of dates is then the one of
    [sort_values], and so is the whole series when no two rows share a
    date. *)
Lemma sorted_perm_same_dates l l' :
  l' ≡ₚ l → StronglySorted date_le l' → l'.*1 = (sort_values l).*1.
Proof.
  intros Hperm Hsorted.
  apply (StronglySorted_unique Z.le).
  - by apply sorted_dates.
  - apply sorted_dates, sort_values_sorted.
  - by rewrite Hperm, sort_values_perm.
Qed.

Lemma sorted_strictly l :
  NoDup l.*1 → StronglySorted date_le l →
  StronglySorted (λ r r' : Z * Q, (r.1 < r'.1)%Z ∨ r = r') l.
Proof.
  intros Hnodup. induction 1 as [|r l Hs IH Hall]; [constructor|].
  rewrite fmap_cons in Hnodup. apply NoDup_cons in Hnodup as [Hr Hnodup].
  constructor; [by apply IH|].
  apply Forall_forall. intros r' Hr'. left.
  pose proof (proj1 (Forall_forall _ _) Hall r' Hr') as Hle. unfold date_le in Hle.
  assert (r.1 ≠ r'.1) by (intros Heq; apply Hr; rewrite Heq; by apply list_elem_of_fmap_2).
  lia.
Qed.

Lemma sorted_perm_unique l l' :
  NoDup l.*1 → l' ≡ₚ l → StronglySorted date_le l' → l' = sort_values l.
Proof.
  intros Hnodup Hperm Hsorted.
  assert (Hanti : AntiSymm (=) (λ r r' : Z * Q, (r.1 < r'.1)%Z ∨ r = r')).
  { intros r r' [H1|H1] [H2|H2]; [lia|done..]. }
  apply (StronglySorted_unique (λ r r' : Z * Q, (r.1 < r'.1)%Z ∨ r = r')).
  - apply sorted_strictly; [by rewrite Hperm | done].
  - apply sorted_strictly; [by rewrite sort_values_perm | apply sort_values_sorted].
  - by rewrite Hperm, sort_values_perm.
Qed.

Lemma Qmin_cases a b : Qmin a b = a ∨ Qmin a b = b.
Proof. unfold Qmin, GenericMinMax.gmin. destruct (a ?= b)%Q; auto. Qed.

Lemma Qmax_cases a b : Qmax a b = a ∨ Qmax a b = b.
Proof. unfold Qmax, GenericMinMax.gmax. destruct (a ?= b)%Q; auto. Qed.

Lemma foldl_Qmin_spec ys y0 :
  let m := foldl Qmin y0 ys in
  m ∈ y0 :: ys ∧ Forall (λ v, m <= v)%Q (y0 :: ys).
Proof.
  revert y0. induction ys as [|y ys IH]; intros y0; simpl.
  - split; [left|]. repeat constructor. apply Qle_refl.
  - destruct (IH (Qmin y0 y)) as [Hin Hall]. simpl in *.
    apply Forall_cons in Hall as [Hm Hall].
    split.
    + apply elem_of_cons in Hin as [->|Hin].
      * destruct (Qmin_cases y0 y) as [->| ->]; [left | right; left].
      * right; by right.
    + constructor; [|constructor; [|done]].
      * eapply Qle_trans; [exact Hm | apply Q.le_min_l].
      * eapply Qle_trans; [exact Hm | apply Q.le_min_r].
Qed.

Lemma foldl_Qmax_spec ys y0 :
  let m := foldl Qmax y0 ys in
  m ∈ y0 :: ys ∧ Forall (λ v, v <= m)%Q (y0 :: ys).
Proof.
  revert y0. induction ys as [|y ys IH]; intros y0; simpl.
  - split; [left|]. repeat constructor. apply Qle_refl.
  - destruct (IH (Qmax y0 y)) as [Hin Hall]. simpl in *.
    apply Forall_cons in Hall as [Hm Hall].
    split.
    + apply elem_of_cons in Hin as [->|Hin].
      * destruct (Qmax_cases y0 y) as [->| ->]; [left | right; left].
      * right; by right.
    + constructor; [|constructor; [|done]].
      * eapply Qle_trans; [apply Q.le_max_l | exact Hm].
      * eapply Qle_trans; [apply Q.le_max_r | exact Hm].
Qed.

Lemma series_min_spec ys :
  match series_min ys with
  | Some m => m ∈ ys ∧ Forall (λ v, m <= v)%Q ys
  | None => ys = []
  end.
Proof. destruct ys as [|y0 ys]; [done|]. apply foldl_Qmin_spec. Qed.

Lemma series_max_spec ys :
  match series_max ys with
  | Some m => m ∈ ys ∧ Forall (λ v, v <= m)%Q ys
  | None => ys = []
  end.
Proof. destruct ys as [|y0 ys]; [done|]. apply foldl_Qmax_spec. Qed.

(** ** The chart emitter *)

Lemma getitem_carries df name :
  name ∈ columns df → getitem df name = Ok (rows df).
Proof. intros H. unfold getitem. by rewrite bool_decide_eq_true_2. Qed.

Lemma os_path_exists_eq path s :
  os_path_exists path s = (Ok (bool_decide (is_Some (fs s !! path))), s).
Proof. reflexivity. Qed.

Lemma read_csv_csv path s df :
  fs s !! path = Some (CsvFile df) → read_csv path s = (Ok df, s).
Proof. intros H. unfold read_csv. by rewrite H. Qed.

Lemma read_csv_not_csv path s f :
  fs s !! path = Some f → (∀ df, f ≠ CsvFile df) →
  ∃ e, read_csv path s = (Raise e, s).
Proof.
  intros H Hf. unfold read_csv. rewrite H.
  destruct f; [by destruct (Hf df) | eauto | eauto].
Qed.

(** The start of [create_chart] when the input file exists. *)
Lemma create_chart_found W name path s f :
  fs s !! path = Some f →
  create_chart W name path s =
    (let* df := read_csv path in
     let* dates := lift (getitem df "ActivityStartDate") in
     let* dates := lift (to_datetime dates) in
     let* values := lift (getitem df "ResultMeasureValue") in
     write_file (chart_path W name)
       (HtmlFile (figure_of name
          (sort_values (dropna_converted dates (to_numeric values)))))) s.
Proof.
  intros H. unfold create_chart at 1, bind at 1. rewrite os_path_exists_eq.
  rewrite bool_decide_eq_true_2 by eauto. reflexivity.
Qed.

Lemma create_chart_missing W name path s :
  fs s !! path = None → create_chart W name path s = (Ok tt, s).
Proof.
  intros H. unfold create_chart, bind. rewrite os_path_exists_eq, H.
  rewrite bool_decide_eq_false_2 by (intros [? ?]; discriminate). reflexivity.
Qed.

Lemma create_chart_eq W name path s df ds :
  fs s !! path = Some (CsvFile df) →
  carries_both_fields df →
  to_datetime (rows df) = Ok ds →
  create_chart W name path s =
    (Ok tt, set_fs (insert (chart_path W name)
                      (HtmlFile (figure_of name (sort_values (coerced df ds))))) s).
Proof.
  intros Hfile [Hd Hv] Hds.
  rewrite (create_chart_found _ _ _ _ _ Hfile). unfold bind, lift.
  rewrite (read_csv_csv _ _ _ Hfile).
  rewrite !getitem_carries by assumption. rewrite Hds.
  reflexivity.
Qed.

Lemma create_chart_inv W name path s r s' :
  create_chart W name path s = (r, s') →
  (fs s !! path = None ∧ r = Ok tt ∧ s' = s)
  ∨ (∃ df ds, fs s !! path = Some (CsvFile df) ∧ carries_both_fields df
       ∧ to_datetime (rows df) = Ok ds ∧ r = Ok tt
       ∧ s' = set_fs (insert (chart_path W name)
                        (HtmlFile (figure_of name (sort_values (coerced df ds))))) s)
  ∨ (∃ e, is_Some (fs s !! path) ∧ r = Raise e ∧ s' = s).
Proof.
  intros Hrun.
  destruct (fs s !! path) as [f|] eqn:Hfile.
  2:{ rewrite create_chart_missing in Hrun by done.
      injection Hrun as <- <-. by left. }
  right. rewrite (create_chart_found _ _ _ _ _ Hfile) in Hrun.
  unfold bind, lift in Hrun.
  assert (Hf : (∃ df, f = CsvFile df) ∨ (∀ df, f ≠ CsvFile df))
    by (destruct f; [left; eauto | right; done | right; done]).
  destruct Hf as [[df ->]|Hf].
  2:{ destruct (read_csv_not_csv _ _ _ Hfile Hf) as [e He].
      rewrite He in Hrun. injection Hrun as <- <-. right; eauto. }
  rewrite (read_csv_csv _ _ _ Hfile) in Hrun. unfold getitem in Hrun.
  case_bool_decide as Hd; [|injection Hrun as <- <-; right; eauto].
  destruct (to_datetime (rows df)) as [ds|e] eqn:Hds;
    [|injection Hrun as <- <-; right; eauto].
  case_bool_decide as Hv; [|injection Hrun as <- <-; right; eauto].
  injection Hrun as <- <-. left. exists df, ds. done.
Qed.

(** ** The concrete tables *)

Example raw_ph_ok : raw_path_of gulf "pH" = raw_ph.
Proof. reflexivity. Qed.

Example filtered_ph_ok : filtered_path_of raw_ph "pH" = filtered_ph.
Proof. reflexivity. Qed.

Example remaining_ph : length (remaining ph_payload) = 5%nat.
Proof. reflexivity. Qed.

(** ** C1: the filter produces a cleaned series exactly above three rows *)

(** C1.  For every raw payload (a table stored at [raw_path] that carries
    the two fields), [filter_results] produces a cleaned series if and only
    if more than 3 rows remain once the rows missing the date or the value
    are dropped; with 3 rows or fewer it returns [None] (insufficient data)
    and writes nothing, the raw payload being removed; hence every cleaned
    series it produces has more than 3 rows. *)
Theorem filter_results_iff_more_than_3 s raw_path name payload :
  fs s !! raw_path = Some (CsvFile payload) →
  carries_both_fields payload →
  let out := (filter_results raw_path name s).1 in
  let s' := (filter_results raw_path name s).2 in
  ((∃ p cleaned, out = Ok (Some p) ∧ fs s' !! p = Some (CsvFile cleaned)
                 ∧ rows cleaned = remaining payload)
   ↔ 3 < length (remaining payload))
  ∧ (length (remaining payload) ≤ 3 →
     out = Ok None ∧ fs s' = delete raw_path (fs s))
  ∧ (∀ p, out = Ok (Some p) →
     ∃ cleaned, fs s' !! p = Some (CsvFile cleaned)
                ∧ rows cleaned = remaining payload ∧ 3 < length (rows cleaned)).
Proof.
  intros Hfile Hcols. cbv zeta.
  rewrite (filter_results_eq s raw_path name payload Hfile Hcols).
  destruct (Nat.leb_spec (length (remaining payload)) 3) as [Hle|Hgt]; cbn [fst snd].
  - split; [split|split].
    + intros (p & cleaned & Hout & _). discriminate Hout.
    + lia.
    + done.
    + intros p Hout. discriminate Hout.
  - split; [split|split].
    + intros _. lia.
    + intros _. eexists _, _. split; [reflexivity|].
      split; [apply lookup_insert_eq | reflexivity].
    + lia.
    + intros p [= <-]. eexists. split; [apply lookup_insert_eq|].
      split; [reflexivity | exact Hgt].
Qed.

Lemma filter_results_iff_more_than_3_witness :
  let s := start_of_process {[ raw_ph := CsvFile ph_payload ]} in
  fs s !! raw_ph = Some (CsvFile ph_payload)
  ∧ carries_both_fields ph_payload
  ∧ (filter_results raw_ph "pH" s).1 = Ok (Some filtered_ph).
Proof.
  cbv zeta.
  assert (Hfile : fs (start_of_process {[ raw_ph := CsvFile ph_payload ]}) !! raw_ph
                  = Some (CsvFile ph_payload)) by apply lookup_singleton_eq.
  assert (Hcols : carries_both_fields ph_payload) by (split; set_solver).
  split; [exact Hfile | split; [exact Hcols|]].
  destruct (filter_results_iff_more_than_3 _ raw_ph "pH" ph_payload Hfile Hcols)
    as [[_ Hmore] _].
  destruct Hmore as (p & cleaned & Hout & _); [vm_compute; lia|].
  rewrite Hout. f_equal. f_equal.
  rewrite (filter_results_eq _ raw_ph "pH" ph_payload Hfile Hcols) in Hout.
  simpl in Hout. injection Hout as <-. reflexivity.
Defined.

(** Without one of the two columns the [dropna] of the filter raises a
    [KeyError]; nothing is removed or written. *)
Lemma filter_results_lacks_field s raw_path name df :
  fs s !! raw_path = Some (CsvFile df) →
  ¬ carries_both_fields df →
  ∃ e, filter_results raw_path name s = (Raise e, s) ∧ kind e = KeyError.
Proof.
  intros Hfile Hcols.
  assert (Hproj : ¬ carries_both_fields (project (λ c, bool_decide (c ∈ cols)) df)).
  { intros [Hd Hv]. apply Hcols. unfold project in Hd, Hv. simpl in Hd, Hv.
    apply list_elem_of_filter in Hd as [_ Hd].
    apply list_elem_of_filter in Hv as [_ Hv]. by split. }
  destruct (dropna_lacks _ Hproj) as (e & He & Hk).
  exists e. split; [|exact Hk].
  unfold filter_results, try_except, read_csv_usecols, bind, lift.
  rewrite (read_csv_csv _ _ _ Hfile). cbn [ret]. rewrite He. reflexivity.
Qed.

(** ** C2: an empty series after coercion *)

Example nd_series_dates :
  to_datetime (rows nd_series) = Ok [Some 11443; Some 10652; Some 10957; Some 10411]%Z.
Proof. reflexivity. Qed.

(** The cleaned series [nd_series] passes the filter (4 rows, all present)
    and loses every row in the numeric coercion of [create_chart]; the
    emitter returns normally all the same and the chart file, absent
    before, holds a figure without a point. *)
Lemma create_chart_writes_empty_chart :
  let s := start_of_process {[ filtered_ph := CsvFile nd_series ]} in
  length (remaining nd_series) = 4
  ∧ coerced nd_series [Some 11443; Some 10652; Some 10957; Some 10411]%Z = []
  ∧ fs s !! chart_path gulf "pH" = None
  ∧ (create_chart gulf "pH" filtered_ph s).1 = Ok tt
  ∧ fs (create_chart gulf "pH" filtered_ph s).2 !! chart_path gulf "pH"
    = Some (HtmlFile
        {| title := "Result Measure Value Over Time for pH";
           x := []; y := []; yaxis_range := (None, None);
           mode := "lines"; width := 1200; height := 600 |}).
Proof. cbv zeta. repeat split; vm_compute; reflexivity. Qed.

(** C2 (amended).  When no row is left after the value field is coerced to
    numbers and the rows that fail are dropped, [create_chart] does not
    fail: it returns normally and persists a chart for the name, with an
    empty series and a value range that is NaN on both ends. *)
Theorem create_chart_zero_rows_still_emits W name path s df ds :
  fs s !! path = Some (CsvFile df) →
  carries_both_fields df →
  to_datetime (rows df) = Ok ds →
  coerced df ds = [] →
  let fig := {| title := "Result Measure Value Over Time for " +:+ name;
                x := []; y := []; yaxis_range := (None, None);
                mode := "lines"; width := 1200; height := 600 |} in
  create_chart W name path s
    = (Ok tt, set_fs (insert (chart_path W name) (HtmlFile fig)) s)
  ∧ fs (create_chart W name path s).2 !! chart_path W name = Some (HtmlFile fig).
Proof.
  intros Hfile Hcols Hds Hzero. cbv zeta.
  rewrite (create_chart_eq W name path s df ds Hfile Hcols Hds), Hzero.
  split; [reflexivity|]. apply lookup_insert_eq.
Qed.

Lemma create_chart_zero_rows_still_emits_witness :
  let s := start_of_process {[ filtered_ph := CsvFile nd_series ]} in
  fs s !! filtered_ph = Some (CsvFile nd_series)
  ∧ carries_both_fields nd_series
  ∧ is_Some (fs (create_chart gulf "pH" filtered_ph s).2 !! chart_path gulf "pH").
Proof.
  cbv zeta.
  assert (Hfile : fs (start_of_process {[ filtered_ph := CsvFile nd_series ]}) !! filtered_ph
                  = Some (CsvFile nd_series)) by apply lookup_singleton_eq.
  assert (Hcols : carries_both_fields nd_series) by (split; set_solver).
  split; [exact Hfile | split; [exact Hcols|]].
  destruct (create_chart_zero_rows_still_emits gulf "pH" filtered_ph _ nd_series _
              Hfile Hcols nd_series_dates eq_refl) as [_ Hchart].
  rewrite Hchart. eauto.
Defined.

(** ** C7: the cleaned series after the emitter *)

(** After a successful run of [create_chart] on the cleaned series of
    [ph_payload], the file of the series is still there, unchanged. *)
Lemma create_chart_leaves_series_file :
  let cleaned := {| columns := cols; rows := remaining ph_payload |} in
  let s := start_of_process {[ filtered_ph := CsvFile cleaned ]} in
  (create_chart gulf "pH" filtered_ph s).1 = Ok tt
  ∧ is_Some (fs (create_chart gulf "pH" filtered_ph s).2 !! chart_path gulf "pH")
  ∧ fs (create_chart gulf "pH" filtered_ph s).2 !! filtered_ph = Some (CsvFile cleaned).
Proof.
  cbv zeta. split; [vm_compute; reflexivity|].
  split; [vm_compute; eauto | vm_compute; reflexivity].
Qed.

(** C7 (amended).  [create_chart] never deletes the cleaned series it was
    given: after a successful invocation the file still exists, with its
    content unless it is the chart file itself, and the chart file is the
    only file that may have changed. *)
Theorem create_chart_keeps_series_file W name path s s' f :
  create_chart W name path s = (Ok tt, s') →
  fs s !! path = Some f →
  is_Some (fs s' !! path)
  ∧ (path ≠ chart_path W name → fs s' !! path = Some f)
  ∧ (∀ p, p ≠ chart_path W name → fs s' !! p = fs s !! p).
Proof.
  intros Hrun Hfile.
  destruct (create_chart_inv _ _ _ _ _ _ Hrun)
    as [(Hnone & _) | [(df & ds & _ & _ & _ & _ & ->) | (e & _ & He & _)]].
  - congruence.
  - cbn [set_fs fs]. split; [|split].
    + rewrite lookup_insert. case_decide; [eauto | rewrite Hfile; eauto].
    + intros Hne. by rewrite lookup_insert_ne.
    + intros p Hne. by rewrite lookup_insert_ne.
  - discriminate He.
Qed.

Lemma create_chart_keeps_series_file_witness :
  let cleaned := {| columns := cols; rows := remaining ph_payload |} in
  let s := start_of_process {[ filtered_ph := CsvFile cleaned ]} in
  fs s !! filtered_ph = Some (CsvFile cleaned)
  ∧ is_Some (fs (create_chart gulf "pH" filtered_ph s).2 !! filtered_ph).
Proof.
  cbv zeta. split; [apply lookup_singleton_eq|].
  eapply (create_chart_keeps_series_file gulf "pH" filtered_ph
            (start_of_process
               {[ filtered_ph := CsvFile {| columns := cols; rows := remaining ph_payload |} ]})).
  - vm_compute. reflexivity.
  - apply lookup_singleton_eq.
Defined.

(** ** C8: the series is sorted and the range is the observed one *)

(** C8.  For every chart [create_chart] produces, the series handed to the
    renderer is the coerced series sorted ascending by date, and the range
    of the value axis is pinned to the minimum and the maximum of its value
    column (NaN on both ends when the column is empty). *)
Theorem create_chart_sorted_and_pinned W name path s s' :
  create_chart W name path s = (Ok tt, s') →
  is_Some (fs s !! path) →
  ∃ fig df ds,
    fs s' !! chart_path W name = Some (HtmlFile fig)
    ∧ fs s !! path = Some (CsvFile df)
    ∧ to_datetime (rows df) = Ok ds
    ∧ zip (x fig) (y fig) ≡ₚ coerced df ds
    ∧ StronglySorted Z.le (x fig)
    ∧ match yaxis_range fig with
      | (Some lo, Some hi) =>
          lo ∈ y fig ∧ hi ∈ y fig ∧ Forall (λ v, lo <= v ∧ v <= hi)%Q (y fig)
      | (None, None) => y fig = []
      | _ => False
      end.
Proof.
  intros Hrun [f Hfile].
  destruct (create_chart_inv _ _ _ _ _ _ Hrun)
    as [(Hnone & _) | [(df & ds & Hdf & _ & Hds & _ & ->) | (e & _ & He & _)]].
  - congruence.
  - eexists _, df, ds. split; [apply lookup_insert_eq|].
    split; [exact Hdf|]. split; [exact Hds|].
    cbn [x y yaxis_range figure_of].
    split; [rewrite zip_fst_snd; apply sort_values_perm|].
    split; [apply sorted_dates, sort_values_sorted|].
    pose proof (series_min_spec (sort_values (coerced df ds)).*2) as Hmin.
    pose proof (series_max_spec (sort_values (coerced df ds)).*2) as Hmax.
    destruct (series_min _) as [lo|], (series_max _) as [hi|].
    + destruct Hmin as [Hlo Hall], Hmax as [Hhi Hall'].
      split; [exact Hlo|]. split; [exact Hhi|].
      apply Forall_and; split; assumption.
    + destruct Hmin as [Hlo _]. rewrite Hmax in Hlo. by apply elem_of_nil in Hlo.
    + destruct Hmax as [Hhi _]. rewrite Hmin in Hhi. by apply elem_of_nil in Hhi.
    + exact Hmin.
  - discriminate He.
Qed.

Lemma create_chart_sorted_and_pinned_witness :
  let cleaned := {| columns := cols; rows := remaining ph_payload |} in
  let s := start_of_process {[ filtered_ph := CsvFile cleaned ]} in
  is_Some (fs s !! filtered_ph)
  ∧ ∃ fig, fs (create_chart gulf "pH" filtered_ph s).2 !! chart_path gulf "pH"
           = Some (HtmlFile fig)
           ∧ StronglySorted Z.le (x fig).
Proof.
  cbv zeta.
  assert (Hfile : is_Some (fs (start_of_process
            {[ filtered_ph := CsvFile {| columns := cols; rows := remaining ph_payload |} ]})
            !! filtered_ph)) by (eexists; apply lookup_singleton_eq).
  split; [exact Hfile|].
  assert (Hrun : create_chart gulf "pH" filtered_ph (start_of_process
            {[ filtered_ph := CsvFile {| columns := cols; rows := remaining ph_payload |} ]})
          = (Ok tt, (create_chart gulf "pH" filtered_ph (start_of_process
            {[ filtered_ph := CsvFile {| columns := cols; rows := remaining ph_payload |} ]})).2))
    by (vm_compute; reflexivity).
  destruct (create_chart_sorted_and_pinned gulf "pH" filtered_ph _ _ Hrun Hfile)
    as (fig & df & ds & Hchart & _ & _ & _ & Hsorted & _).
  exists fig. split; [exact Hchart | exact Hsorted].
Defined.

Example chart_of_ph_payload :
  let cleaned := {| columns := cols; rows := remaining ph_payload |} in
  let s := start_of_process {[ filtered_ph := CsvFile cleaned ]} in
  fs (create_chart gulf "pH" filtered_ph s).2 !! chart_ph
  = Some (HtmlFile
      {| title := "Result Measure Value Over Time for pH";
         x := [10411; 10412; 10652; 11443]%Z;
         y := [7; 8; 69 # 10; 71 # 10]%Q;
         yaxis_range := (Some (69 # 10), Some 8)%Q;
         mode := "lines"; width := 1200; height := 600 |}).
Proof. vm_compute. reflexivity. Qed.

(** ** C9: the file names derived from characteristic names *)

Lemma length_app_string (s t : string) :
  String.length (s +:+ t) = String.length s + String.length t.
Proof. induction s as [|c s IH]; simpl; [done | by rewrite IH]. Qed.

(** [+:+] cancels on the right. *)
Lemma app_string_inv_tail (t s1 s2 : string) : s1 +:+ t = s2 +:+ t → s1 = s2.
Proof.
  revert s2. induction s1 as [|c s1 IH]; intros [|c' s2] Heq; simpl in Heq.
  - done.
  - change (t = String c' (s2 +:+ t)) in Heq.
    apply (f_equal String.length) in Heq. cbn [String.length] in Heq.
    rewrite (length_app_string s2) in Heq. lia.
  - change (String c (s1 +:+ t) = t) in Heq.
    apply (f_equal String.length) in Heq. cbn [String.length] in Heq.
    rewrite (length_app_string s1) in Heq. lia.
  - change (String c (s1 +:+ t) = String c' (s2 +:+ t)) in Heq.
    injection Heq as -> Heq. f_equal. by apply IH.
Qed.

(** Joining a directory with a file name that starts with a letter appends
    the name after a prefix that depends on the directory only. *)
Lemma join_relative (a : string) :
  ∃ prefix, ∀ c b, Ascii.eqb c Py.sep = false →
    Py.join a (String c b) = prefix +:+ String c b.
Proof.
  destruct (negb (Py.truthy a) || Py.endswith_sep a) eqn:Ha.
  - exists a. intros c b Hc. unfold Py.join, Py.startswith_sep. by rewrite Hc, Ha.
  - exists (a +:+ "/"). intros c b Hc.
    unfold Py.join, Py.startswith_sep. rewrite Hc, Ha.
    clear. induction a as [|c' a IH]; [done|].
    change (String c' (a +:+ "/" +:+ String c b)
            = String c' ((a +:+ "/") +:+ String c b)).
    by rewrite IH.
Qed.

(** The raw-payload path is a fixed prefix, [result_], the tag, [.csv]. *)
Lemma raw_path_of_shape W :
  ∃ prefix, ∀ name,
    raw_path_of W name = prefix +:+ "result_" +:+ _safe_tag name +:+ ".csv".
Proof.
  destruct (join_relative (Py.join (cwd W) "ResponseData")) as [prefix Hjoin].
  exists prefix. intros name. unfold raw_path_of.
  change ("result_" +:+ _safe_tag name +:+ ".csv")
    with (String "r" ("esult_" +:+ _safe_tag name +:+ ".csv")).
  by rewrite Hjoin.
Qed.

(** Two distinct names, a slash against a blank, share one raw-payload
    file. *)
Lemma raw_path_of_collision :
  "Nitrate/Nitrite" ≠ "Nitrate Nitrite"
  ∧ _safe_tag "Nitrate/Nitrite" = "Nitrate_Nitrite"
  ∧ _safe_tag "Nitrate Nitrite" = "Nitrate_Nitrite"
  ∧ raw_path_of gulf "Nitrate/Nitrite" = raw_path_of gulf "Nitrate Nitrite".
Proof. repeat split; [discriminate | reflexivity..]. Qed.

(** C9 (amended).  The raw-payload path the Fetcher derives from a name
    depends on the name through its sanitised tag only, and is injective in
    the tag: two names are written to the same file exactly when their tags
    are equal. *)
Theorem raw_path_of_eq_iff_tag W name1 name2 :
  raw_path_of W name1 = raw_path_of W name2 ↔ _safe_tag name1 = _safe_tag name2.
Proof.
  destruct (raw_path_of_shape W) as [prefix Hshape]. rewrite !Hshape.
  split.
  - intros Heq. apply (inj (String.app prefix)) in Heq.
    apply (inj (String.app "result_")) in Heq.
    by apply app_string_inv_tail in Heq.
  - by intros ->.
Qed.

(** [fetch_API] writes to [raw_path_of] and nowhere else. *)
Lemma fetch_API_writes W name date s resp :
  http_get W (clock s) name date = Ok resp →
  status_code resp = 200%Z →
  (fetch_API W name date s).1 = Ok (raw_path_of W name)
  ∧ fs (fetch_API W name date s).2 = <[raw_path_of W name := content resp]> (fs s).
Proof.
  intros Hget Hcode.
  unfold fetch_API, requests_get, bind, tick, lift. cbn [clock].
  rewrite Hget, Hcode. done.
Qed.

(** ** C10 and C4: the start request *)

Lemma lstrip_whitespace_only s :
  whitespace_only s = true → Py.lstrip Py.isspace s = "".
Proof.
  induction s as [|c s IH]; simpl; [done|].
  intros [Hc Hs]%andb_true_iff. rewrite Hc. by apply IH.
Qed.

Lemma strip_whitespace_only s : whitespace_only s = true → Py.strip s = "".
Proof.
  intros H. unfold Py.strip, Py.strip_chars.
  by rewrite lstrip_whitespace_only.
Qed.

(** What [lstrip] leaves of a string with a character that is no whitespace
    starts with such a character. *)
Lemma lstrip_not_whitespace_only s :
  whitespace_only s = false →
  ∃ c r, Py.lstrip Py.isspace s = String c r ∧ Py.isspace c = false.
Proof.
  induction s as [|c s IH]; simpl; [done|].
  destruct (Py.isspace c) eqn:Hc; simpl; [exact IH | eauto].
Qed.

Lemma rstrip_keeps_head p c r : p c = false → Py.rstrip p (String c r) ≠ "".
Proof. intros Hc. simpl. destruct (Py.rstrip p r); by rewrite ?Hc. Qed.

Lemma strip_not_whitespace_only s :
  whitespace_only s = false → Py.truthy (Py.strip s) = true.
Proof.
  intros (c & r & Hl & Hc)%lstrip_not_whitespace_only.
  unfold Py.strip, Py.strip_chars. rewrite Hl.
  pose proof (rstrip_keeps_head Py.isspace c r Hc) as Hne.
  by destruct (Py.rstrip Py.isspace (String c r)).
Qed.

(** C10.  A start request whose scenario is empty, missing or made of
    whitespace only is answered by an error (status 400); the process state
    is the one before the request: the job state is unchanged and no thread
    was started. *)
Theorem analyze_blank_scenario_rejected s request :
  whitespace_only (default "" (scenario request)) = true →
  ∃ reply msg,
    analyze request s = (Ok reply, s)
    ∧ http_status reply = 400
    ∧ body reply = [("error", msg)].
Proof.
  intros Hblank. unfold analyze, bind, get.
  rewrite (strip_whitespace_only _ Hblank). cbn [Py.truthy negb].
  destruct (status (analysis_state s)); eexists _, _; done.
Qed.

Lemma analyze_blank_scenario_rejected_witness :
  let s := start_of_process ∅ in
  whitespace_only "   " = true
  ∧ ∃ reply, analyze {| scenario := Some "   " |} s = (Ok reply, s)
             ∧ http_status reply = 400.
Proof.
  cbv zeta. split; [reflexivity|].
  destruct (analyze_blank_scenario_rejected (start_of_process ∅)
              {| scenario := Some "   " |} eq_refl) as (reply & msg & Hrun & Hcode & _).
  exists reply. split; [exact Hrun | exact Hcode].
Defined.

(** A start request without a scenario, issued when the status is
    [Completed], neither resets the state nor starts a run. *)
Lemma analyze_not_running_not_started :
  status (analysis_state after_a_run) ≠ Running
  ∧ analyze {| scenario := Some "" |} after_a_run = (Ok no_scenario, after_a_run)
  ∧ analysis_state after_a_run ≠ initial_state
  ∧ trace (analyze {| scenario := Some "" |} after_a_run).2 = [].
Proof. repeat split; [discriminate | discriminate]. Qed.

(** C4 (amended).  A start request issued while the status is [Running] is
    rejected with "already in progress" and leaves the whole state as it
    was; a request issued in any other status with a blank scenario is
    rejected too, the state unchanged; a request issued in any other status
    with a scenario that is not blank resets the job state, records the
    stripped scenario and starts a run. *)
Theorem analyze_cases s request :
  let text := default "" (scenario request) in
  (status (analysis_state s) = Running
   ∧ analyze request s = (Ok already_running, s))
  ∨ (status (analysis_state s) ≠ Running ∧ whitespace_only text = true
     ∧ analyze request s = (Ok no_scenario, s))
  ∨ (status (analysis_state s) ≠ Running ∧ whitespace_only text = false
     ∧ analyze request s
       = (Ok (started (Py.strip text)), accepted (Py.strip text) s)).
Proof.
  cbv zeta. unfold analyze, bind, get.
  destruct (whitespace_only (default "" (scenario request))) eqn:Hblank.
  - rewrite (strip_whitespace_only _ Hblank). cbn [Py.truthy negb].
    destruct (status (analysis_state s));
      [right; left; done | left; done | right; left; done..].
  - rewrite (strip_not_whitespace_only _ Hblank). cbn [negb].
    destruct (status (analysis_state s));
      [right; right; done | left; done | right; right; done..].
Qed.

Example analyze_accepts :
  analyze {| scenario := Some " oil spill " |} after_a_run
  = (Ok (started "oil spill"), accepted "oil spill" after_a_run).
Proof. reflexivity. Qed.

(** ** What a computation does to the job state and to the trace *)

Lemma quiet_ret {A} (a : A) : quiet (ret a).
Proof. by intros s. Qed.

Lemma quiet_raise {A} e : quiet (@raise A e).
Proof. by intros s. Qed.

Lemma quiet_lift {A} (r : result A) : quiet (lift r).
Proof. by intros s. Qed.

Lemma quiet_get : quiet get.
Proof. by intros s. Qed.

Lemma quiet_tick : quiet tick.
Proof. by intros s. Qed.

Lemma quiet_assert c msg : quiet (assert_ c msg).
Proof. by destruct c; intros s. Qed.

Lemma quiet_set_fs f : quiet (modify (set_fs f)).
Proof. by intros s. Qed.

Lemma quiet_set_vectorstore f : quiet (modify (set_vectorstore f)).
Proof. by intros s. Qed.

Lemma quiet_log_build texts : quiet (modify (log (EvIndexBuild texts))).
Proof. by intros s. Qed.

Lemma quiet_os_path_exists path : quiet (os_path_exists path).
Proof. by intros s. Qed.

Lemma quiet_os_remove path : quiet (os_remove path).
Proof. intros s. unfold os_remove. by destruct (fs s !! path). Qed.

Lemma quiet_read_csv path : quiet (read_csv path).
Proof. intros s. unfold read_csv. by destruct (fs s !! path) as [[]|]. Qed.

Lemma quiet_bind {A B} (m : M A) (k : A → M B) :
  quiet m → (∀ a, quiet (k a)) → quiet (bind m k).
Proof.
  intros Hm Hk s. unfold bind.
  destruct (Hm s) as [Hj Hu]. destruct (m s) as [[a|e] s1]; cbn [snd] in *.
  - destruct (Hk a s1) as [Hj' Hu']. split; congruence.
  - done.
Qed.

Lemma quiet_try_except {A} (m : M A) (h : exn → M A) :
  quiet m → (∀ e, quiet (h e)) → quiet (try_except m h).
Proof.
  intros Hm Hh s. unfold try_except.
  destruct (Hm s) as [Hj Hu]. destruct (m s) as [[a|e] s1]; cbn [snd] in *.
  - done.
  - destruct (Hh e s1) as [Hj' Hu']. split; congruence.
Qed.

Create HintDb quiet discriminated.

#[local] Hint Resolve quiet_ret quiet_raise quiet_lift quiet_get quiet_tick
  quiet_assert quiet_set_fs quiet_set_vectorstore quiet_log_build
  quiet_os_path_exists quiet_os_remove quiet_read_csv : quiet.

(** Splits a computation along its binds and its tests. *)
Ltac quiet_steps :=
  repeat match goal with
    | |- quiet (bind _ _) => apply quiet_bind; [|intros ?]
    | |- quiet (try_except _ _) => apply quiet_try_except; [|intros ?]
    | |- quiet (if ?b then _ else _) => destruct b
    | |- quiet (match ?o with Some _ => _ | None => _ end) => destruct o
    | |- quiet _ => solve [eauto with quiet]
    end.

Lemma quiet_write_file path f : quiet (write_file path f).
Proof. unfold write_file. quiet_steps. Qed.

#[local] Hint Resolve quiet_write_file : quiet.

Lemma quiet_fetch_API W inVar inVar2 : quiet (fetch_API W inVar inVar2).
Proof. unfold fetch_API, requests_get. quiet_steps. Qed.

Lemma quiet_filter_results raw_path name : quiet (filter_results raw_path name).
Proof. unfold filter_results, read_csv_usecols, to_csv. quiet_steps. Qed.

Lemma quiet_create_chart W name path : quiet (create_chart W name path).
Proof. unfold create_chart. quiet_steps. Qed.

Lemma quiet_search W inVar : quiet (search W inVar).
Proof. unfold search, Chroma_from_texts, find_related. quiet_steps. Qed.

#[local] Hint Resolve quiet_fetch_API quiet_filter_results quiet_create_chart
  quiet_search : quiet.

(** ** C6: the vector index is built by every call *)

(** What a call of [search] that returns has done. *)
Lemma search_returns W scene s results s' :
  search W scene s = (Ok results, s') →
  ∃ values,
    values_filtered_json W = Ok values
    ∧ let texts := filter (λ v, v ∉ invalid_values W) values in
      texts ≠ []
      ∧ trace s' = EvIndexBuild texts :: trace s
      ∧ vectorstore s' = vectorstore s ++ texts
      ∧ similarity_search W (S (clock s)) (vectorstore s ++ texts) scene 20
        = Ok results.
Proof.
  unfold search, bind, lift. fold (invalid_values W).
  destruct (values_filtered_json W) as [values|e]; [|discriminate].
  unfold assert_ at 1. case_bool_decide as Hv; [|discriminate]. cbn [ret].
  unfold assert_ at 1. case_bool_decide as Hf; [|discriminate]. cbn [ret].
  unfold assert_ at 1. destruct (Py.truthy _); [|discriminate]. cbn [ret].
  unfold Chroma_from_texts, find_related, bind, tick, get, modify, lift.
  cbn [clock]. destruct (embed W (clock s) _) as [e|]; [discriminate|].
  cbn [fst snd vectorstore set_vectorstore log clock].
  destruct (similarity_search W _ _ scene 20) as [r|e] eqn:Hsim; [|discriminate].
  intros [= <- <-]. exists values. cbv zeta. cbn [trace vectorstore].
  done.
Qed.

(** Two calls in one process: the second call builds the index again, and
    the persisted collection holds every name twice. *)
Lemma search_builds_index_twice :
  let s1 := (search gulf "oil spill" (start_of_process ∅)).2 in
  let s2 := (search gulf "red tide" s1).2 in
  (search gulf "oil spill" (start_of_process ∅)).1 = Ok ["pH"; "Turbidity"]
  ∧ index_builds (trace s1) = [["pH"; "Turbidity"]]
  ∧ (search gulf "red tide" s1).1 = Ok ["pH"; "Turbidity"; "pH"; "Turbidity"]
  ∧ index_builds (trace s2) = [["pH"; "Turbidity"]; ["pH"; "Turbidity"]]
  ∧ vectorstore s2 = ["pH"; "Turbidity"; "pH"; "Turbidity"].
Proof. cbv zeta. repeat split; vm_compute; reflexivity. Qed.

(** C6 (amended).  [search] builds the vector index on every call, not once
    in the life of the process.  A call that returns has made exactly one
    more [Chroma.from_texts] build; the texts of that build are the whole
    filtered catalog (the names of the catalog that [invalid.txt] does not
    list, in the order of the catalog); they are appended to the persisted
    collection behind the documents earlier calls left there; and the query
    of the call ran over the collection grown that way.  This holds in
    every state: no call skips the build because an index exists. *)
Theorem search_builds_index_every_call W scene s results s' :
  search W scene s = (Ok results, s') →
  ∃ values,
    values_filtered_json W = Ok values
    ∧ let texts := filter (λ v, v ∉ invalid_values W) values in
      texts ≠ []
      ∧ index_builds (trace s') = texts :: index_builds (trace s)
      ∧ length (index_builds (trace s')) = S (length (index_builds (trace s)))
      ∧ vectorstore s' = vectorstore s ++ texts
      ∧ similarity_search W (S (clock s)) (vectorstore s') scene 20 = Ok results.
Proof.
  intros (values & Hjson & Hne & Htrace & Hstore & Hsim)%search_returns.
  exists values. split; [exact Hjson|]. cbv zeta.
  split; [exact Hne|]. rewrite Htrace, Hstore. done.
Qed.

Lemma search_builds_index_every_call_witness :
  let s1 := (search gulf "oil spill" (start_of_process ∅)).2 in
  search gulf "red tide" s1
  = (Ok ["pH"; "Turbidity"; "pH"; "Turbidity"], (search gulf "red tide" s1).2)
  ∧ index_builds (trace (search gulf "red tide" s1).2)
    = ["pH"; "Turbidity"] :: index_builds (trace s1)
  ∧ vectorstore (search gulf "red tide" s1).2
    = vectorstore s1 ++ ["pH"; "Turbidity"].
Proof.
  cbv zeta.
  assert (Hrun : search gulf "red tide"
                   (search gulf "oil spill" (start_of_process ∅)).2
                 = (Ok ["pH"; "Turbidity"; "pH"; "Turbidity"],
                    (search gulf "red tide"
                       (search gulf "oil spill" (start_of_process ∅)).2).2))
    by (vm_compute; reflexivity).
  split; [exact Hrun|].
  destruct (search_builds_index_every_call gulf "red tide" _ _ _ Hrun)
    as (values & Hjson & _ & Hbuilds & _ & Hstore & _).
  injection Hjson as <-. split; [exact Hbuilds | exact Hstore].
Defined.

(** ** The updates of a run *)

Section Run.

Variable W : World.

Lemma updated_by_trans us1 us2 s1 s2 s3 :
  updated_by us1 s1 s2 → updated_by us2 s2 s3 → updated_by (us1 ++ us2) s1 s3.
Proof.
  intros [Hj1 Hu1] [Hj2 Hu2]. split.
  - by rewrite foldl_app, <- Hj1.
  - by rewrite Hu2, Hu1, rev_app_distr, app_assoc.
Qed.

Lemma updated_by_quiet {A} (m : M A) s : quiet m → updated_by [] s (m s).2.
Proof. intros Hm. destruct (Hm s) as [Hj Hu]. by split. Qed.

Lemma update_analysis_status_eq st msg pr tot comp s :
  update_analysis_status st msg pr tot comp s
  = (Ok tt, after_update {| u_status := st; u_message := msg; u_progress := pr;
                            u_total_characteristics := tot;
                            u_completed_charts := comp |} s).
Proof. reflexivity. Qed.

Lemma updated_by_after_update u s : updated_by [u] s (after_update u s).
Proof. by split. Qed.

Lemma emits_prefix_quiet {A} full (m : M A) : quiet m → emits_prefix full m.
Proof.
  intros Hm s. exists []. split; [apply prefix_nil | by apply updated_by_quiet].
Qed.

Lemma emits_prefix_quiet_bind {A B} full (m : M A) (k : A → M B) :
  quiet m → (∀ a, emits_prefix full (k a)) → emits_prefix full (bind m k).
Proof.
  intros Hm Hk s. unfold bind.
  pose proof (updated_by_quiet m s Hm) as Hq.
  destruct (m s) as [[a|e] s1]; cbn [snd] in Hq.
  - destruct (Hk a s1) as (seg & Hpre & Hseg). exists seg. split; [done|].
    apply (updated_by_trans [] seg _ _ _ Hq Hseg).
  - exists []. split; [apply prefix_nil | done].
Qed.

Lemma emits_prefix_update {B} full st msg pr tot comp (k : unit → M B) :
  (∀ a, emits_prefix full (k a)) →
  emits_prefix ({| u_status := st; u_message := msg; u_progress := pr;
                   u_total_characteristics := tot;
                   u_completed_charts := comp |} :: full)
    (bind (update_analysis_status st msg pr tot comp) k).
Proof.
  intros Hk s. unfold bind. rewrite update_analysis_status_eq.
  set (u := {| u_status := st |}).
  destruct (Hk tt (after_update u s)) as (seg & Hpre & Hseg).
  exists (u :: seg). split; [by apply prefix_cons|].
  apply (updated_by_trans [u] seg _ _ _ (updated_by_after_update u s) Hseg).
Qed.

Lemma emits_prefix_try {A} full (m : M A) (a : A) :
  emits_prefix full m → emits_prefix full (try_except m (λ _, ret a)).
Proof.
  intros Hm s. destruct (Hm s) as (seg & Hpre & Hseg). exists seg.
  split; [done|]. unfold try_except, ret.
  by destruct (m s) as [[a'|e] s'].
Qed.

(** [try: m except: continue] in the loop: the handler only leaves the
    body. *)
Lemma try_except_ret {A} (m : M A) (a : A) s :
  try_except m (λ _, ret a) s
  = (Ok (match (m s).1 with Ok a' => a' | Raise _ => a end), (m s).2).
Proof. unfold try_except, ret. by destruct (m s) as [[a'|e] s']. Qed.

(** The body of the loop returns, whatever its stages raise, and its
    updates are a segment of the candidate. *)
Lemma candidate_runs total_chars i characteristic completed s :
  ∃ completed' seg,
    candidate W total_chars i characteristic completed s
      = (Ok completed', (candidate W total_chars i characteristic completed s).2)
    ∧ candidate_segment total_chars (i, characteristic) seg
    ∧ updated_by seg s (candidate W total_chars i characteristic completed s).2.
Proof.
  unfold candidate. rewrite try_except_ret. cbn [snd].
  match goal with
  | |- context [bind (update_analysis_status ?st ?msg ?pr ?tot ?comp) ?k] =>
      set (body := bind (update_analysis_status st msg pr tot comp) k);
      assert (Hbody : (body s).2
                = (k tt (after_update (step1 total_chars i characteristic) s)).2)
        by reflexivity;
      assert (Hrest : emits_prefix
                [ step2 total_chars i characteristic;
                  step3 total_chars i characteristic;
                  charted total_chars i (S completed) ] (k tt))
  end.
  { apply emits_prefix_quiet_bind; [apply quiet_fetch_API|]. intros raw_path.
    destruct (negb (Py.truthy raw_path));
      [apply emits_prefix_quiet, quiet_ret|].
    apply emits_prefix_update; intros _.
    apply emits_prefix_quiet_bind; [apply quiet_filter_results|].
    intros [filtered_path|]; [|apply emits_prefix_quiet, quiet_ret].
    destruct (negb (Py.truthy filtered_path));
      [apply emits_prefix_quiet, quiet_ret|].
    apply emits_prefix_update; intros _.
    apply emits_prefix_quiet_bind; [apply quiet_create_chart|]. intros _.
    apply emits_prefix_update; intros _.
    apply emits_prefix_quiet, quiet_ret. }
  destruct (Hrest (after_update (step1 total_chars i characteristic) s))
    as (seg' & Hpre & Hseg).
  eexists _, (step1 total_chars i characteristic :: seg').
  split; [reflexivity|]. split; [by exists seg', (S completed)|].
  rewrite Hbody.
  apply (updated_by_trans [_] seg' _ _ _ (updated_by_after_update _ s) Hseg).
Qed.

(** The loop returns, and leaves one segment per candidate, in order. *)
Lemma for_candidates_runs total_chars results_list : ∀ i completed s,
  ∃ completed' segs,
    for_candidates W total_chars i results_list completed s
      = (Ok completed', (for_candidates W total_chars i results_list completed s).2)
    ∧ Forall2 (candidate_segment total_chars) (indexed i results_list) segs
    ∧ updated_by (concat segs) s
        (for_candidates W total_chars i results_list completed s).2.
Proof.
  induction results_list as [|c rest IH]; intros i completed s.
  - exists completed, []. split; [reflexivity|]. split; [constructor|].
    by split.
  - cbn [for_candidates]. unfold bind.
    destruct (candidate_runs total_chars i c completed s)
      as (completed1 & seg & Hrun & Hseg & Hup).
    rewrite Hrun.
    destruct (IH (S i) completed1
                (candidate W total_chars i c completed s).2)
      as (completed' & segs & Hrun' & Hsegs & Hup').
    exists completed', (seg :: segs). split; [exact Hrun'|].
    split; [by constructor|].
    apply (updated_by_trans seg (concat segs) _ _ _ Hup Hup').
Qed.

(** [run_analysis] step by step. *)
Lemma run_analysis_eq scenario s :
  run_analysis W scenario s =
    match search W scenario (after_update run_started s) with
    | (Ok results_list, s2) =>
        match for_candidates W (length results_list) 0 results_list 0
                (after_update (found (length results_list)) s2) with
        | (Ok completed, s4) => (Ok tt, after_update (run_completed completed) s4)
        | (Raise e, s4) => (Ok tt, after_update (run_failed e) s4)
        end
    | (Raise e, s2) => (Ok tt, after_update (run_failed e) s2)
    end.
Proof.
  unfold run_analysis, try_except, bind.
  rewrite update_analysis_status_eq. fold run_started.
  destruct (search W scenario (after_update run_started s))
    as [[results_list|e] s2]; [|reflexivity].
  rewrite update_analysis_status_eq. fold (found (length results_list)).
  by destruct (for_candidates W (length results_list) 0 results_list 0 _)
    as [[completed|e] s4].
Qed.

(** The updates of a whole run, by the outcome of the retriever: a run that
    gets its candidates gives each of them its segment and completes; a
    run whose retriever raises ends in the handler. *)
Lemma run_analysis_updates scenario s :
  run_analysis W scenario s = (Ok tt, (run_analysis W scenario s).2)
  ∧ match retrieval W scenario s with
    | Ok results_list =>
        ∃ segs completed,
          Forall2 (candidate_segment (length results_list))
            (indexed 0 results_list) segs
          ∧ updated_by
              ([run_started; found (length results_list)] ++ concat segs
               ++ [run_completed completed])
              s (run_analysis W scenario s).2
    | Raise e =>
        updated_by [run_started; run_failed e] s (run_analysis W scenario s).2
    end.
Proof.
  unfold retrieval. rewrite run_analysis_eq.
  set (s1 := after_update run_started s).
  pose proof (updated_by_after_update run_started s) as Hu1. fold s1 in Hu1.
  pose proof (updated_by_quiet _ s1 (quiet_search W scenario)) as Hq.
  destruct (search W scenario s1) as [[results_list|e] s2]; cbn [fst snd] in *.
  - set (s3 := after_update (found (length results_list)) s2).
    pose proof (updated_by_after_update (found (length results_list)) s2) as Hu3.
    fold s3 in Hu3.
    destruct (for_candidates_runs (length results_list) results_list 0 0 s3)
      as (completed & segs & Hrun & Hsegs & Hup).
    rewrite Hrun. cbn [snd]. split; [reflexivity|].
    exists segs, completed. split; [exact Hsegs|].
    exact (updated_by_trans _ _ _ _ _
             (updated_by_trans _ _ _ _ _
                (updated_by_trans _ _ _ _ _
                   (updated_by_trans _ _ _ _ _ Hu1 Hq) Hu3) Hup)
             (updated_by_after_update (run_completed completed) _)).
  - split; [reflexivity|].
    exact (updated_by_trans _ _ _ _ _ (updated_by_trans _ _ _ _ _ Hu1 Hq)
             (updated_by_after_update (run_failed e) s2)).
Qed.

End Run.

(** ** The arithmetic of the progress values *)

Lemma num_nonneg n : (0 <= num n)%Q.
Proof. unfold num, Qle. simpl. lia. Qed.

Lemma num_succ n : (num (n + 1) == num n + 1)%Q.
Proof.
  unfold num. rewrite Nat2Z.inj_add, inject_Z_plus. reflexivity.
Qed.

Lemma num_pos n : 0 < n → (0 < num n)%Q.
Proof. intros H. unfold num, Qlt. simpl. lia. Qed.

Lemma num_le n m : n ≤ m → (num n <= num m)%Q.
Proof. intros H. unfold num. rewrite <- Zle_Qle. lia. Qed.

(** The share of one candidate in the 80 points of the loop. *)
Lemma share_bounds total_chars i :
  i < total_chars →
  let r := (/ num total_chars)%Q in
  (0 <= r ∧ 0 <= num i * r ∧ num i * r + r <= 1)%Q.
Proof.
  intros Hi r.
  assert (Ht : (0 < num total_chars)%Q) by (apply num_pos; lia).
  assert (Hr : (0 < r)%Q) by (by apply Qinv_lt_0_compat).
  split; [by apply Qlt_le_weak|].
  split; [apply Qmult_le_0_compat; [apply num_nonneg | by apply Qlt_le_weak]|].
  assert (Hle : (num (i + 1) <= num total_chars)%Q) by (apply num_le; lia).
  rewrite num_succ in Hle.
  apply (Qmult_le_compat_r _ _ r) in Hle; [|by apply Qlt_le_weak].
  assert (Hone : (num total_chars * r == 1)%Q).
  { unfold r. apply Qmult_inv_r. intros H0. rewrite H0 in Ht. by apply Qlt_irrefl in Ht. }
  rewrite Hone in Hle. lra.
Qed.

(** The four progress values of a candidate never decrease and lie between
    15 and 95. *)
Lemma stage_progress total_chars i characteristic completed :
  i < total_chars →
  let ps := progress_writes (stage_updates total_chars i characteristic completed) in
  StronglySorted Qle ps ∧ Forall (λ p, 15 <= p ∧ p <= 95)%Q ps.
Proof.
  intros Hi. destruct (share_bounds total_chars i Hi) as (Hr & Hx & Hxr).
  cbn [progress_writes stage_updates omap list_omap u_progress step1 step2
       step3 charted].
  cbv zeta in Hr, Hx, Hxr.
  assert (H1 : (15 + num i * 80 / num total_chars / 3
                == 15 + (80 # 3) * (num i * / num total_chars))%Q)
    by (unfold Qdiv; change (/ 3)%Q with (1 # 3)%Q; ring).
  assert (H2 : (15 + (num i * 80 / num total_chars / 3 + 80 / num total_chars / 3)
                == 15 + (80 # 3) * (num i * / num total_chars)
                   + (80 # 3) * / num total_chars)%Q)
    by (unfold Qdiv; change (/ 3)%Q with (1 # 3)%Q; ring).
  assert (H3 : (15 + (num i * 80 / num total_chars / 3
                      + 2 * 80 / num total_chars / 3)
                == 15 + (80 # 3) * (num i * / num total_chars)
                   + (160 # 3) * / num total_chars)%Q)
    by (unfold Qdiv; change (/ 3)%Q with (1 # 3)%Q; ring).
  assert (H4 : (15 + num (i + 1) * 80 / num total_chars
                == 15 + 80 * (num i * / num total_chars)
                   + 80 * / num total_chars)%Q)
    by (rewrite num_succ; unfold Qdiv; ring).
  set (x := (num i * / num total_chars)%Q) in *.
  set (r := (/ num total_chars)%Q) in *.
  clearbody x r.
  split.
  - repeat constructor. all: rewrite ?H1, ?H2, ?H3, ?H4.
    all: clear H1 H2 H3 H4; lra.
  - repeat constructor. all: rewrite ?H1, ?H2, ?H3, ?H4.
    all: clear H1 H2 H3 H4; lra.
Qed.

Lemma progress_writes_concat (segs : list (list Update)) :
  progress_writes (concat segs) = concat (map progress_writes segs).
Proof.
  unfold progress_writes. induction segs as [|seg segs IH]; [done|].
  cbn [concat map]. by rewrite omap_app, IH.
Qed.

Lemma indexed_bounds j results_list i c :
  (i, c) ∈ indexed j results_list → j ≤ i < j + length results_list.
Proof.
  unfold indexed. intros Hin%elem_of_zip_l. cbn [fst] in Hin.
  apply elem_of_seq in Hin. lia.
Qed.

Lemma indexed_length j results_list :
  length (indexed j results_list) = length results_list.
Proof. unfold indexed. rewrite length_zip, length_seq. lia. Qed.

(** The progress values of the segment of a candidate never decrease and
    lie between 15 and 95. *)
Lemma candidate_segment_progress total_chars i characteristic seg :
  i < total_chars →
  candidate_segment total_chars (i, characteristic) seg →
  let ps := progress_writes seg in
  ps ≠ [] ∧ StronglySorted Qle ps ∧ Forall (λ p, 15 <= p ∧ p <= 95)%Q ps.
Proof.
  intros Hi (seg' & completed & -> & [rest Hrest]). cbn [fst snd] in *.
  destruct (stage_progress total_chars i characteristic 0 Hi) as [Hsorted Hall].
  cbv zeta in Hsorted, Hall.
  assert (Hfull : progress_writes (stage_updates total_chars i characteristic 0)
                  = progress_writes (step1 total_chars i characteristic :: seg')
                    ++ progress_writes rest).
  { unfold progress_writes. rewrite <- omap_app. cbn [app].
    rewrite <- Hrest. reflexivity. }
  rewrite Hfull in Hsorted, Hall. cbv zeta. split; [done|]. split.
  - by apply StronglySorted_app_1_l in Hsorted.
  - by apply Forall_app in Hall as [Hall _].
Qed.

(** ** C3: the progress values of a run *)

(** A run over two candidates that completes: after the first candidate is
    charted the progress is 55, and the first update of the second
    candidate writes 85/3, which is less.  A run whose retriever raises
    writes 5 and then 0.  (The values are shown in lowest terms.) *)
Lemma run_analysis_progress_decreases :
  let s' := (run_analysis gulf "oil spill" (start_of_process ∅)).2 in
  let s'' := (run_analysis gulf_without_key "oil spill" (start_of_process ∅)).2 in
  status (analysis_state s') = Completed
  ∧ map Qred (progress_writes (rev (updates (trace s'))))
    = [5; 15; 15; 85 # 3; 125 # 3; 55; 85 # 3; 125 # 3; 55; 95; 100]%Q
  ∧ (85 # 3 < 55)%Q
  ∧ status (analysis_state s'') = Error
  ∧ progress_writes (rev (updates (trace s''))) = [5; 0]%Q.
Proof. cbv zeta. repeat split; vm_compute; reflexivity. Qed.

(** C3 (amended).  The progress values a run writes are 5, then 15, then
    for each candidate a non-empty run of values that never decreases and
    stays between 15 and 95, then exactly 100 when the run reaches
    [Completed], so that the transition to [Completed] never decreases the
    progress; when the retriever fails the values are 5 then 0: the
    transition to [Error] resets the progress to 0. *)
Theorem run_analysis_progress W scenario s :
  let s' := (run_analysis W scenario s).2 in
  ∃ us,
    updates (trace s') = rev us ++ updates (trace s)
    ∧ match retrieval W scenario s with
      | Ok results_list =>
          status (analysis_state s') = Completed
          ∧ progress (analysis_state s') = 100%Q
          ∧ ∃ segs,
              progress_writes us = [5; 15]%Q ++ concat segs ++ [100%Q]
              ∧ length segs = length results_list
              ∧ Forall (λ seg, seg ≠ [] ∧ StronglySorted Qle seg
                               ∧ Forall (λ p, 15 <= p ∧ p <= 95)%Q seg) segs
      | Raise e =>
          status (analysis_state s') = Error
          ∧ progress (analysis_state s') = 0%Q
          ∧ progress_writes us = [5; 0]%Q
      end.
Proof.
  cbv zeta. destruct (run_analysis_updates W scenario s) as [_ Hshape].
  destruct (retrieval W scenario s) as [results_list|e].
  - destruct Hshape as (segs & completed & Hsegs & Hjob & Htrace).
    eexists. split; [exact Htrace|].
    rewrite Hjob, !app_assoc, foldl_app. split; [reflexivity|].
    split; [reflexivity|].
    exists (map progress_writes segs).
    split; [|split].
    + unfold progress_writes at 1. rewrite !omap_app.
      fold (progress_writes (concat segs)). rewrite progress_writes_concat.
      by rewrite <- app_assoc.
    + rewrite length_map, <- (Forall2_length _ _ _ Hsegs). apply indexed_length.
    + apply Forall_fmap.
      eapply Forall2_Forall_r; [exact Hsegs|].
      apply Forall_forall. intros [i c] Hin seg Hseg.
      apply indexed_bounds in Hin.
      apply (candidate_segment_progress (length results_list) i c seg);
        [lia | exact Hseg].
  - destruct Hshape as [Hjob Htrace]. eexists. split; [exact Htrace|].
    rewrite Hjob. done.
Qed.

(** ** C5: a failing candidate is skipped, a failing retriever ends the run *)

(** C5.  [run_analysis] itself never raises.  When the retriever returns,
    the run reaches [Completed] whatever the three stages of the candidates
    raise, and every candidate of the list, in order, gets its first
    update: a failure is a skip to the next candidate.  The run ends in
    [Error] exactly when the retriever raises, and the message of the job
    state then holds the text of the exception. *)
Theorem run_analysis_skips_or_fails W scenario s :
  let s' := (run_analysis W scenario s).2 in
  run_analysis W scenario s = (Ok tt, s')
  ∧ match retrieval W scenario s with
    | Ok results_list =>
        status (analysis_state s') = Completed
        ∧ ∃ segs completed,
            updates (trace s')
            = rev ([run_started; found (length results_list)] ++ concat segs
                   ++ [run_completed completed]) ++ updates (trace s)
            ∧ Forall2 (λ ic seg,
                 ∃ rest, seg = step1 (length results_list) ic.1 ic.2 :: rest
                         ∧ Forall (λ u, u_status u = None) seg)
                (indexed 0 results_list) segs
    | Raise e =>
        status (analysis_state s') = Error
        ∧ message (analysis_state s') = "Analysis failed: " +:+ str e
    end.
Proof.
  cbv zeta. destruct (run_analysis_updates W scenario s) as [Hrun Hshape].
  split; [exact Hrun|].
  destruct (retrieval W scenario s) as [results_list|e].
  - destruct Hshape as (segs & completed & Hsegs & Hjob & Htrace).
    split; [by rewrite Hjob, !app_assoc, foldl_app|].
    exists segs, completed. split; [exact Htrace|].
    eapply Forall2_impl; [exact Hsegs|].
    intros [i c] seg (seg' & done & -> & [rest Hrest]). cbn [fst snd] in *.
    exists seg'. split; [reflexivity|].
    constructor; [reflexivity|].
    assert (Hall : Forall (λ u, u_status u = None) (seg' ++ rest))
      by (rewrite <- Hrest; repeat constructor).
    by apply Forall_app in Hall as [Hall _].
  - destruct Hshape as [Hjob _]. rewrite Hjob. done.
Qed.

Example run_skips_failed_candidate :
  let s' := (run_analysis gulf_without_ph "oil spill" (start_of_process ∅)).2 in
  retrieval gulf_without_ph "oil spill" (start_of_process ∅) = Ok ["pH"; "Turbidity"]
  ∧ analysis_state s'
    = {| status := Completed;
         message := "Analysis completed! Generated 1 charts.";
         progress := 100;
         total_characteristics := 2;
         completed_charts := 1;
         current_scenario := "";
         error_message := "" |}
  ∧ fs s' !! chart_path gulf "pH" = None
  ∧ is_Some (fs s' !! chart_path gulf "Turbidity").
Proof. cbv zeta. repeat split; vm_compute; eauto. Qed.

Example run_fails_without_key :
  analysis_state (run_analysis gulf_without_key "oil spill" (start_of_process ∅)).2
  = {| status := Error;
       message := "Analysis failed: OPENAI_API_KEY not set";
       progress := 0;
       total_characteristics := 0;
       completed_charts := 0;
       current_scenario := "";
       error_message := "" |}.
Proof. vm_compute. reflexivity. Qed.

(** * More of the code *)

(** ** Strings *)

Lemma app_string_nil_l (s : string) : "" +:+ s = s.
Proof. reflexivity. Qed.

Lemma app_string_cons (c : ascii) (s t : string) :
  String c s +:+ t = String c (s +:+ t).
Proof. reflexivity. Qed.

Lemma string_forall_app p s t :
  string_forall p (s +:+ t) = string_forall p s && string_forall p t.
Proof.
  induction s as [|c s IH]; [done|].
  rewrite app_string_cons. cbn [string_forall]. rewrite IH. apply andb_assoc.
Qed.

Lemma string_forall_impl (p q : ascii → bool) s :
  (∀ c, p c = true → q c = true) →
  string_forall p s = true → string_forall q s = true.
Proof.
  intros Hpq. induction s as [|c s IH]; [done|]. cbn [string_forall].
  intros [Hc Hs]%andb_true_iff. by rewrite (Hpq c Hc), IH.
Qed.

(** *** [re.sub] of runs *)

Lemma sub_runs_forall p q in_run s :
  q "_"%char = true →
  string_forall (λ c, p c || q c) s = true →
  string_forall q (Py.sub_runs p "_" in_run s) = true.
Proof.
  intros Hq. revert in_run. induction s as [|c s IH]; intros in_run; [done|].
  cbn [string_forall Py.sub_runs]. intros [Hc Hs]%andb_true_iff.
  destruct (p c) eqn:Hp.
  - destruct in_run; [by apply IH|].
    rewrite app_string_cons, app_string_nil_l. cbn [string_forall].
    by rewrite Hq, IH.
  - cbn [string_forall]. cbn [orb] in Hc. by rewrite Hc, IH.
Qed.

Lemma sub_runs_id p in_run s :
  string_forall (λ c, negb (p c)) s = true → Py.sub_runs p "_" in_run s = s.
Proof.
  revert in_run. induction s as [|c s IH]; intros in_run; [done|].
  cbn [string_forall Py.sub_runs]. intros [Hc Hs]%andb_true_iff.
  apply negb_true_iff in Hc. rewrite Hc. by rewrite IH.
Qed.

Lemma sub_runs_length p in_run s :
  String.length (Py.sub_runs p "_" in_run s) ≤ String.length s.
Proof.
  revert in_run. induction s as [|c s IH]; intros in_run; [done|].
  cbn [Py.sub_runs String.length]. destruct (p c).
  - destruct in_run.
    + specialize (IH true). lia.
    + rewrite app_string_cons, app_string_nil_l. cbn [String.length].
      specialize (IH true). lia.
  - cbn [String.length]. specialize (IH false). lia.
Qed.

(** *** [strip] and slices *)

Lemma lstrip_forall p q s :
  string_forall q s = true → string_forall q (Py.lstrip p s) = true.
Proof.
  induction s as [|c s IH]; [done|]. cbn [Py.lstrip].
  destruct (p c); [|done]. cbn [string_forall].
  intros [_ Hs]%andb_true_iff. by apply IH.
Qed.

Lemma rstrip_forall p q s :
  string_forall q s = true → string_forall q (Py.rstrip p s) = true.
Proof.
  induction s as [|c s IH]; [done|]. cbn [Py.rstrip string_forall].
  intros [Hc Hs]%andb_true_iff. specialize (IH Hs).
  destruct (Py.rstrip p s) as [|c' r].
  - destruct (p c); [done|]. cbn [string_forall]. by rewrite Hc.
  - cbn [string_forall] in *. by rewrite Hc, IH.
Qed.

Lemma take_forall q n s :
  string_forall q s = true → string_forall q (Py.take n s) = true.
Proof.
  revert s. induction n as [|n IH]; intros [|c s]; try done.
  cbn [Py.take string_forall]. intros [Hc Hs]%andb_true_iff.
  by rewrite Hc, IH.
Qed.

Lemma lstrip_length p s : String.length (Py.lstrip p s) ≤ String.length s.
Proof.
  induction s as [|c s IH]; [done|]. cbn [Py.lstrip].
  destruct (p c); cbn [String.length]; lia.
Qed.

Lemma rstrip_length p s : String.length (Py.rstrip p s) ≤ String.length s.
Proof.
  induction s as [|c s IH]; [done|]. cbn [Py.rstrip].
  destruct (Py.rstrip p s) as [|c' r].
  - destruct (p c); cbn [String.length]; lia.
  - cbn [String.length] in *. lia.
Qed.

Lemma take_length n s : String.length (Py.take n s) ≤ n.
Proof.
  revert s. induction n as [|n IH]; intros [|c s]; cbn [Py.take String.length];
    try lia. specialize (IH s). lia.
Qed.

Lemma take_all n s : String.length s ≤ n → Py.take n s = s.
Proof.
  revert s. induction n as [|n IH]; intros [|c s]; cbn [Py.take String.length];
    try done; try lia.
  intros H. rewrite IH; [done | lia].
Qed.

Lemma take_first n s : 0 < n → first_char (Py.take n s) = first_char s.
Proof. destruct n, s; done || lia. Qed.

(** What [lstrip] leaves does not start with a stripped character. *)
Lemma lstrip_first p s c :
  first_char (Py.lstrip p s) = Some c → p c = false.
Proof.
  induction s as [|c' s IH]; [done|]. cbn [Py.lstrip].
  destruct (p c') eqn:Hp; [done|]. by intros [= <-].
Qed.

(** [rstrip] keeps the first character of what it leaves. *)
Lemma rstrip_first p s c :
  first_char (Py.rstrip p s) = Some c → first_char s = Some c.
Proof.
  destruct s as [|c' s]; [done|]. cbn [Py.rstrip].
  destruct (Py.rstrip p s); [destruct (p c')|]; done.
Qed.

(** What [rstrip] leaves does not end with a stripped character. *)
Lemma rstrip_last p s c :
  last_char (Py.rstrip p s) = Some c → p c = false.
Proof.
  induction s as [|c' s IH]; [done|]. cbn [Py.rstrip].
  destruct (Py.rstrip p s) as [|c'' r].
  - destruct (p c') eqn:Hp; [done|]. by intros [= <-].
  - exact IH.
Qed.

Lemma lstrip_id p s :
  (∀ c, first_char s = Some c → p c = false) → Py.lstrip p s = s.
Proof.
  destruct s as [|c s]; [done|]. intros H. cbn [Py.lstrip].
  by rewrite (H c eq_refl).
Qed.

Lemma rstrip_id p s :
  (∀ c, last_char s = Some c → p c = false) → Py.rstrip p s = s.
Proof.
  induction s as [|c s IH]; [done|]. intros H. cbn [Py.rstrip].
  destruct s as [|c' s].
  - cbn. by rewrite (H c eq_refl).
  - rewrite IH; [done|]. intros c0 Hc0. apply H. exact Hc0.
Qed.

(** A string that [lstrip] or [rstrip] does not shorten is left as it is. *)
Lemma lstrip_same_length p s :
  String.length s ≤ String.length (Py.lstrip p s) → Py.lstrip p s = s.
Proof.
  destruct s as [|c s]; [done|]. cbn [Py.lstrip].
  destruct (p c); [|done]. pose proof (lstrip_length p s).
  cbn [String.length]. lia.
Qed.

Lemma rstrip_same_length p s :
  String.length s ≤ String.length (Py.rstrip p s) → Py.rstrip p s = s.
Proof.
  induction s as [|c s IH]; [done|]. cbn [Py.rstrip].
  pose proof (rstrip_length p s) as Hlen.
  destruct (Py.rstrip p s) as [|c' r] eqn:Hr.
  - destruct (p c); cbn [String.length] in *; intros H.
    + lia.
    + destruct s; [done | cbn [String.length] in *; lia].
  - cbn [String.length] in *. intros H. rewrite IH; [done | lia].
Qed.

Lemma take_same_length n s :
  String.length s ≤ String.length (Py.take n s) → Py.take n s = s.
Proof.
  revert s. induction n as [|n IH]; intros [|c s]; cbn [Py.take String.length];
    try done; try lia.
  intros H. rewrite IH; [done | lia].
Qed.

(** ** [_safe_tag]: the tag is a safe file name *)

Lemma string_forall_true (p : ascii → bool) s :
  (∀ c, p c = true) → string_forall p s = true.
Proof.
  intros Hp. induction s as [|c s IH]; [done|].
  cbn [string_forall]. by rewrite Hp, IH.
Qed.

(** The two substitutions of [_safe_tag] leave plain characters only. *)
Lemma substituted_plain name :
  string_forall plain_char
    (Py.re_sub Py.isspace "_" (Py.re_sub _BAD "_" name)) = true.
Proof.
  unfold Py.re_sub. apply sub_runs_forall; [reflexivity|].
  apply (string_forall_impl (λ c, negb (_BAD c))).
  - intros c Hc. unfold plain_char. rewrite Hc. by destruct (Py.isspace c).
  - apply sub_runs_forall; [reflexivity|].
    apply string_forall_true. intros c. by destruct (_BAD c).
Qed.

(** On plain characters the two substitutions change nothing. *)
Lemma substituted_id name :
  string_forall plain_char name = true →
  Py.re_sub Py.isspace "_" (Py.re_sub _BAD "_" name) = name.
Proof.
  intros Hplain. unfold Py.re_sub.
  rewrite (sub_runs_id _BAD).
  - apply sub_runs_id. revert Hplain. apply string_forall_impl.
    unfold plain_char. by intros c [_ ?]%andb_true_iff.
  - revert Hplain. apply string_forall_impl.
    unfold plain_char. by intros c [? _]%andb_true_iff.
Qed.

Lemma substituted_length name :
  String.length (Py.re_sub Py.isspace "_" (Py.re_sub _BAD "_" name))
  ≤ String.length name.
Proof.
  unfold Py.re_sub.
  pose proof (sub_runs_length Py.isspace false (Py.sub_runs _BAD "_" false name)).
  pose proof (sub_runs_length _BAD false name). lia.
Qed.

Lemma strip_chars_length p s :
  String.length (Py.strip_chars p s) ≤ String.length s.
Proof.
  unfold Py.strip_chars.
  pose proof (rstrip_length p (Py.lstrip p s)).
  pose proof (lstrip_length p s). lia.
Qed.

Lemma safe_tag_plain name : string_forall plain_char (_safe_tag name) = true.
Proof.
  unfold _safe_tag, Py.or_else, Py.strip_chars.
  destruct (Py.truthy _); [|reflexivity].
  apply take_forall, rstrip_forall, lstrip_forall, substituted_plain.
Qed.

Lemma safe_tag_truthy name : Py.truthy (_safe_tag name) = true.
Proof.
  unfold _safe_tag, Py.or_else.
  by destruct (Py.truthy (Py.take 80 _)) eqn:H.
Qed.

Lemma safe_tag_length name : String.length (_safe_tag name) ≤ 80.
Proof.
  unfold _safe_tag, Py.or_else.
  destruct (Py.truthy _); [apply take_length | cbn; lia].
Qed.

Lemma safe_tag_first name : clean_end (first_char (_safe_tag name)) = true.
Proof.
  unfold _safe_tag, Py.or_else, Py.strip_chars.
  destruct (Py.truthy _); [|reflexivity].
  rewrite take_first by lia.
  destruct (first_char (Py.rstrip _ _)) as [c|] eqn:Hc; [|done].
  apply rstrip_first, lstrip_first in Hc. cbn [clean_end]. by rewrite Hc.
Qed.

(** A name that is already safe is its own tag. *)
Lemma safe_tag_of_safe name : already_safe name = true → _safe_tag name = name.
Proof.
  unfold already_safe.
  intros [[[[Hne Hlen]%andb_true_iff Hplain]%andb_true_iff Hfirst]%andb_true_iff
            Hlast]%andb_true_iff.
  apply Nat.leb_le in Hlen.
  unfold _safe_tag. rewrite (substituted_id _ Hplain).
  unfold Py.strip_chars. rewrite lstrip_id, rstrip_id, (take_all 80 name Hlen).
  - unfold Py.or_else. by rewrite Hne.
  - intros c Hc. rewrite Hc in Hlast. by apply negb_true_iff in Hlast.
  - intros c Hc. rewrite Hc in Hfirst. by apply negb_true_iff in Hfirst.
Qed.

(** The tag of a name of 80 characters at most ends cleanly too. *)
Lemma safe_tag_last name :
  String.length name ≤ 80 → clean_end (last_char (_safe_tag name)) = true.
Proof.
  intros Hlen. unfold _safe_tag, Py.or_else.
  rewrite (take_all 80).
  2:{ pose proof (strip_chars_length dot_or_underscore
                    (Py.re_sub Py.isspace "_" (Py.re_sub _BAD "_" name))).
      pose proof (substituted_length name). lia. }
  destruct (Py.truthy _); [|reflexivity]. unfold Py.strip_chars.
  destruct (last_char (Py.rstrip _ _)) as [c|] eqn:Hc; [|done].
  apply rstrip_last in Hc. cbn [clean_end]. by rewrite Hc.
Qed.

(** X1.  Whatever the name, its tag is not empty, has 80 characters at
    most, holds no character of the class [_BAD] and no whitespace, and
    does not start with a dot or an underscore. *)
Theorem safe_tag_is_safe name :
  _safe_tag name ≠ ""
  ∧ String.length (_safe_tag name) ≤ 80
  ∧ string_forall plain_char (_safe_tag name) = true
  ∧ clean_end (first_char (_safe_tag name)) = true.
Proof.
  split; [|split; [|split]].
  - pose proof (safe_tag_truthy name) as H. by destruct (_safe_tag name).
  - apply safe_tag_length.
  - apply safe_tag_plain.
  - apply safe_tag_first.
Qed.

(** X2.  The names [_safe_tag] leaves as they are are exactly the names that
    are already safe: not empty, 80 characters at most, made of plain
    characters, with no dot or underscore at either end. *)
Theorem safe_tag_fixed_iff_safe name :
  _safe_tag name = name ↔ already_safe name = true.
Proof.
  split; [|apply safe_tag_of_safe].
  intros Hfix.
  pose proof (safe_tag_truthy name) as Hne.
  pose proof (safe_tag_length name) as Hlen.
  pose proof (safe_tag_plain name) as Hplain.
  pose proof (safe_tag_first name) as Hfirst.
  rewrite Hfix in Hne, Hlen, Hplain, Hfirst.
  unfold already_safe. rewrite Hne, Hplain, Hfirst.
  rewrite (proj2 (Nat.leb_le _ _) Hlen). cbn [andb].
  rewrite <- Hfix. by apply safe_tag_last.
Qed.

(** X3.  On names of 80 characters at most [_safe_tag] is idempotent: the
    tag of a tag is the tag. *)
Theorem safe_tag_idempotent name :
  String.length name ≤ 80 → _safe_tag (_safe_tag name) = _safe_tag name.
Proof.
  intros Hlen. apply safe_tag_of_safe. unfold already_safe.
  rewrite safe_tag_truthy, safe_tag_plain, safe_tag_first, safe_tag_last by done.
  pose proof (safe_tag_length name) as H. apply Nat.leb_le in H as ->. done.
Qed.

Lemma safe_tag_idempotent_witness :
  String.length "Dissolved oxygen (DO)" ≤ 80
  ∧ _safe_tag (_safe_tag "Dissolved oxygen (DO)") = "Dissolved_oxygen_(DO)".
Proof.
  split; [cbn; lia|].
  rewrite (safe_tag_idempotent "Dissolved oxygen (DO)"); [reflexivity | cbn; lia].
Defined.

(** Past 80 characters the cut may leave an underscore at the end, which a
    second pass strips. *)
Example safe_tag_not_idempotent :
  let name := "Alkalinity, carbonate as calcium carbonate, by incremental titration, dissolved (0.45 um filter)" in
  String.length name = 96
  ∧ _safe_tag name
    = "Alkalinity,_carbonate_as_calcium_carbonate,_by_incremental_titration,_dissolved_"
  ∧ _safe_tag (_safe_tag name)
    = "Alkalinity,_carbonate_as_calcium_carbonate,_by_incremental_titration,_dissolved".
Proof. cbv zeta. split; [|split]; vm_compute; reflexivity. Qed.

(** ** [os.path]: joining and splitting *)

Lemma app_string_assoc (s t u : string) : s +:+ t +:+ u = (s +:+ t) +:+ u.
Proof.
  induction s as [|c s IH]; [done|]. rewrite !app_string_cons. by rewrite IH.
Qed.

Lemma last_char_app s t : t ≠ "" → last_char (s +:+ t) = last_char t.
Proof.
  intros Ht. induction s as [|c s IH]; [done|].
  rewrite app_string_cons. cbn [last_char]. rewrite IH.
  destruct (s +:+ t) eqn:Hst; [|done].
  destruct s; [by rewrite app_string_nil_l in Hst | discriminate Hst].
Qed.

Lemma endswith_sep_last s :
  Py.endswith_sep s = match last_char s with
                      | Some c => Ascii.eqb c Py.sep
                      | None => false
                      end.
Proof.
  induction s as [|c s IH]; [done|]. cbn [Py.endswith_sep last_char].
  by destruct s.
Qed.

Lemma plain_not_sep c : plain_char c = true → not_sep c = true.
Proof.
  unfold plain_char, not_sep. intros [Hbad _]%andb_true_iff.
  destruct (Ascii.eqb_spec c Py.sep) as [->|]; [discriminate Hbad | done].
Qed.

(** The last character of a join with a name that is not empty is the last
    character of the name. *)
Lemma join_last a b : b ≠ "" → last_char (Py.join a b) = last_char b.
Proof.
  intros Hb. unfold Py.join.
  destruct (Py.startswith_sep b); [done|].
  destruct (negb (Py.truthy a) || Py.endswith_sep a).
  - by apply last_char_app.
  - rewrite app_string_assoc. by apply last_char_app.
Qed.

(** Joining a directory that is not empty and does not end with a slash
    with a relative name puts a slash between them. *)
Lemma join_plain_dir a b :
  Py.truthy a = true → Py.endswith_sep a = false →
  Py.startswith_sep b = false →
  Py.join a b = a +:+ "/" +:+ b.
Proof. intros Ha He Hb. unfold Py.join. by rewrite Hb, Ha, He. Qed.

Lemma head_upto_sep_none f :
  string_forall not_sep f = true → Py.head_upto_sep f = "".
Proof.
  induction f as [|c f IH]; [done|]. cbn [string_forall Py.head_upto_sep].
  intros [Hc Hf]%andb_true_iff. rewrite (IH Hf).
  unfold not_sep in Hc. apply negb_true_iff in Hc. by rewrite Hc.
Qed.

Lemma head_upto_sep_cons c p :
  Py.head_upto_sep (String c p)
  = match Py.head_upto_sep p with
    | "" => if Ascii.eqb c Py.sep then "/" else ""
    | h => String c h
    end.
Proof. reflexivity. Qed.

Lemma head_upto_sep_app a f :
  string_forall not_sep f = true →
  Py.head_upto_sep (a +:+ "/" +:+ f) = a +:+ "/".
Proof.
  intros Hf. induction a as [|c a IH].
  - rewrite !app_string_nil_l.
    change ("/" +:+ f) with (String "/" f). cbn [Py.head_upto_sep].
    by rewrite (head_upto_sep_none f Hf).
  - rewrite !(app_string_cons c a), head_upto_sep_cons, IH.
    by destruct a.
Qed.

Lemma rstrip_app_stripped p a b :
  string_forall p b = true → Py.rstrip p (a +:+ b) = Py.rstrip p a.
Proof.
  intros Hb. induction a as [|c a IH].
  - rewrite app_string_nil_l. induction b as [|c b IHb]; [done|].
    cbn [string_forall] in Hb. apply andb_true_iff in Hb as [Hc Hb].
    cbn [Py.rstrip]. rewrite (IHb Hb). cbn. by rewrite Hc.
  - rewrite app_string_cons. cbn [Py.rstrip]. by rewrite IH.
Qed.

(** [dirname] undoes [join] on a directory that is not empty, holds a
    character other than a slash and does not end with a slash, and a name
    without a slash. *)
Lemma dirname_join a f :
  Py.all_sep a = false → Py.endswith_sep a = false →
  string_forall not_sep f = true → f ≠ "" →
  Py.dirname (Py.join a f) = a.
Proof.
  intros Hall Hend Hf Hne.
  assert (Ha : Py.truthy a = true) by (by destruct a).
  rewrite join_plain_dir; [|done..|].
  2:{ destruct f as [|c f]; [done|]. cbn [string_forall] in Hf.
      apply andb_true_iff in Hf as [Hc _]. unfold not_sep in Hc.
      by apply negb_true_iff in Hc. }
  unfold Py.dirname. rewrite (head_upto_sep_app a f Hf).
  assert (Htr : Py.truthy (a +:+ "/") = true) by (by destruct a).
  assert (Hns : Py.all_sep (a +:+ "/") = false).
  { clear -Hall. induction a as [|c a IH]; [done|].
    rewrite app_string_cons. cbn [Py.all_sep] in *.
    destruct (Ascii.eqb c Py.sep); [cbn in *; by apply IH | done]. }
  rewrite Htr, Hns. cbn [andb negb].
  rewrite rstrip_app_stripped by done.
  apply rstrip_id. intros c Hc.
  rewrite endswith_sep_last, Hc in Hend. exact Hend.
Qed.

(** The directory of the working files ends with its name, whatever the
    current directory. *)
Lemma ResponseData_shape W : ∃ pre, ResponseData W = pre +:+ "ResponseData".
Proof.
  unfold ResponseData, Py.join. cbn [Py.startswith_sep Ascii.eqb].
  change (Ascii.eqb "R" Py.sep) with false. cbv iota.
  destruct (negb (Py.truthy (cwd W)) || Py.endswith_sep (cwd W)).
  - by exists (cwd W).
  - exists (cwd W +:+ "/"). apply app_string_assoc.
Qed.

Lemma ResponseData_plain_dir W :
  Py.all_sep (ResponseData W) = false ∧ Py.endswith_sep (ResponseData W) = false.
Proof.
  destruct (ResponseData_shape W) as [pre ->]. split.
  - induction pre as [|c pre IH]; [done|].
    rewrite app_string_cons. cbn [Py.all_sep].
    destruct (Ascii.eqb c Py.sep); [exact IH | done].
  - rewrite endswith_sep_last, last_char_app by done. reflexivity.
Qed.

(** The file names of the pipeline hold no slash. *)
Lemma tagged_name_no_sep (before after name : string) :
  string_forall not_sep before = true → string_forall not_sep after = true →
  string_forall not_sep (before +:+ _safe_tag name +:+ after) = true.
Proof.
  intros Hb Ha. rewrite !string_forall_app, Hb, Ha.
  rewrite (string_forall_impl plain_char not_sep _ plain_not_sep
             (safe_tag_plain name)). done.
Qed.

Lemma dirname_raw_path W name :
  Py.dirname (raw_path_of W name) = ResponseData W.
Proof.
  destruct (ResponseData_plain_dir W) as [Hall Hend].
  unfold raw_path_of. fold (ResponseData W).
  apply dirname_join; [done | done | by apply tagged_name_no_sep | done].
Qed.

Lemma filtered_path_of_raw W name :
  filtered_path_of (raw_path_of W name) name
  = Py.join (ResponseData W) ("filtered_result_" +:+ _safe_tag name +:+ ".csv").
Proof. unfold filtered_path_of. by rewrite dirname_raw_path. Qed.

Lemma filtered_path_ne_raw W name :
  filtered_path_of (raw_path_of W name) name ≠ raw_path_of W name.
Proof.
  destruct (ResponseData_plain_dir W) as [Hall Hend].
  rewrite filtered_path_of_raw. unfold raw_path_of. fold (ResponseData W).
  assert (Ha : Py.truthy (ResponseData W) = true)
    by (by destruct (ResponseData W)).
  rewrite !join_plain_dir by done.
  intros Heq. apply (inj (String.app (ResponseData W))) in Heq.
  discriminate Heq.
Qed.

(** X4.  In a pipeline run the cleaned series is written next to the raw
    payload, in [ResponseData] under the current directory, to
    [filtered_result_<tag>.csv]; this is never the file of the raw
    payload. *)
Theorem filtered_path_next_to_raw W name :
  filtered_path_of (raw_path_of W name) name
  = Py.join (Py.join (cwd W) "ResponseData")
      ("filtered_result_" +:+ _safe_tag name +:+ ".csv")
  ∧ filtered_path_of (raw_path_of W name) name ≠ raw_path_of W name.
Proof. split; [apply filtered_path_of_raw | apply filtered_path_ne_raw]. Qed.

(** X5.  The chart of a name is never written over a working file of the
    pipeline: its path differs from every raw-payload path and from every
    cleaned-series path. *)
Theorem chart_path_not_working_file W name other :
  chart_path W name ≠ raw_path_of W other
  ∧ chart_path W name ≠ filtered_path_of (raw_path_of W other) other.
Proof.
  assert (Hchart : last_char (chart_path W name) = Some "l"%char).
  { unfold chart_path. rewrite join_last by done.
    rewrite (app_string_assoc "chart_"), last_char_app by done. reflexivity. }
  split; intros Heq; rewrite Heq in Hchart.
  - unfold raw_path_of in Hchart. rewrite join_last in Hchart by done.
    rewrite (app_string_assoc "result_"), last_char_app in Hchart by done.
    discriminate Hchart.
  - unfold filtered_path_of in Hchart. rewrite join_last in Hchart by done.
    rewrite (app_string_assoc "filtered_result_"), last_char_app in Hchart by done.
    discriminate Hchart.
Qed.

(** X6.  The charts of two names share a file exactly when the names have
    the same tag: a chart is overwritten by the names of its tag only. *)
Theorem chart_path_eq_iff_tag W name1 name2 :
  chart_path W name1 = chart_path W name2 ↔ _safe_tag name1 = _safe_tag name2.
Proof.
  destruct (join_relative (cwd W)) as [prefix Hjoin]. unfold chart_path.
  change ("chart_" +:+ _safe_tag name1 +:+ ".html")
    with (String "c" ("hart_" +:+ _safe_tag name1 +:+ ".html")).
  change ("chart_" +:+ _safe_tag name2 +:+ ".html")
    with (String "c" ("hart_" +:+ _safe_tag name2 +:+ ".html")).
  rewrite !Hjoin by done. split; [|by intros ->].
  intros Heq. apply (inj (String.app prefix)) in Heq.
  injection Heq as Heq. rewrite !app_string_nil_l in Heq.
  by apply app_string_inv_tail in Heq.
Qed.

(** ** [fetch_API] *)

Lemma raw_path_truthy W name : Py.truthy (raw_path_of W name) = true.
Proof.
  assert (H : last_char (raw_path_of W name) = Some "v"%char).
  { unfold raw_path_of. rewrite join_last by done.
    rewrite (app_string_assoc "result_"), last_char_app by done. reflexivity. }
  by destruct (raw_path_of W name).
Qed.

(** X7.  [fetch_API] returns a path that tests true exactly when the
    provider answers with status 200; then the body of the answer is
    stored at the raw-payload path of the name, and only then is the file
    store changed: with another status, or when the request itself raises,
    every file is as it was. *)
Theorem fetch_API_stores_only_on_200 W name date s :
  match http_get W (clock s) name date with
  | Ok response =>
      ∃ path,
        (fetch_API W name date s).1 = Ok path
        ∧ (Py.truthy path = true ↔ status_code response = 200%Z)
        ∧ fs (fetch_API W name date s).2
          = if Py.truthy path
            then <[raw_path_of W name := content response]> (fs s)
            else fs s
  | Raise e =>
      (fetch_API W name date s).1 = Raise e
      ∧ fs (fetch_API W name date s).2 = fs s
  end.
Proof.
  unfold fetch_API, requests_get, bind, tick, lift. cbn [clock].
  destruct (http_get W (clock s) name date) as [response|e]; [|done].
  destruct (Z.eqb_spec (status_code response) 200) as [Hcode|Hcode]; cbn [negb].
  - exists (raw_path_of W name). rewrite raw_path_truthy. done.
  - exists "". cbn [Py.truthy]. split; [done|]. split; [|done].
    split; [discriminate | by intros ?].
Qed.

(** ** [filter_results]: what it writes and what it removes *)

Lemma filter_idem {A} (P : A → Prop) `{∀ x, Decision (P x)} (l : list A) :
  filter P (filter P l) = filter P l.
Proof.
  induction l as [|a l IH]; [done|]. rewrite filter_cons.
  destruct (decide (P a)) as [Ha|Ha]; [|exact IH].
  rewrite filter_cons, decide_True by done. by rewrite IH.
Qed.

(** What a call of [filter_results] may have done: raised before the
    removal, with the state untouched, or read a payload with both fields
    and gone the one or the other way of [filter_results_eq]. *)
Lemma filter_results_inv raw_path name s r s' :
  filter_results raw_path name s = (r, s') →
  (∃ e, r = Raise e ∧ s' = s)
  ∨ (∃ payload,
       fs s !! raw_path = Some (CsvFile payload)
       ∧ carries_both_fields payload
       ∧ (r, s') =
           if (length (remaining payload) <=? 3)%nat
           then (Ok None, set_fs (delete raw_path) s)
           else (Ok (Some (filtered_path_of raw_path name)),
                 set_fs (λ m, <[filtered_path_of raw_path name :=
                                 CsvFile {| columns := filter (λ c, keep_cols c = true)
                                                         (columns payload);
                                            rows := remaining payload |}]>
                                (delete raw_path m)) s)).
Proof.
  intros Hrun.
  destruct (fs s !! raw_path) as [f|] eqn:Hfile.
  2:{ left. unfold filter_results, try_except, read_csv_usecols, bind, read_csv in Hrun.
      do 2 (rewrite Hfile in Hrun; cbv beta iota in Hrun).
      injection Hrun as <- <-. eauto. }
  assert (Hf : (∃ df, f = CsvFile df) ∨ (∀ df, f ≠ CsvFile df))
    by (destruct f; [left; eauto | right; done | right; done]).
  destruct Hf as [[payload ->]|Hf].
  2:{ left. unfold filter_results, try_except, read_csv_usecols, bind, read_csv in Hrun.
      destruct f; [by destruct (Hf df)| |];
        do 2 (rewrite Hfile in Hrun; cbv beta iota in Hrun);
        injection Hrun as <- <-; eauto. }
  destruct (decide ("ActivityStartDate" ∈ columns payload)) as [Hd|Hd].
  - destruct (decide ("ResultMeasureValue" ∈ columns payload)) as [Hv|Hv].
    + right. exists payload. split; [done|]. split; [by split|].
      by rewrite <- Hrun, (filter_results_eq s raw_path name payload Hfile (conj Hd Hv)).
    + left. destruct (filter_results_lacks_field s raw_path name payload Hfile)
        as (e & He & _); [by intros [_ ?]|].
      rewrite He in Hrun. injection Hrun as <- <-. eauto.
  - left. destruct (filter_results_lacks_field s raw_path name payload Hfile)
      as (e & He & _); [by intros [? _]|].
    rewrite He in Hrun. injection Hrun as <- <-. eauto.
Qed.

(** X8.  The cleaned series [filter_results] writes keeps the invariant of
    the data model: it has the two columns of interest and no other, every
    row has both fields present, the rows are rows of the payload in their
    order, and filtering it again would drop nothing. *)
Theorem filter_results_cleaned_series s raw_path name payload p :
  fs s !! raw_path = Some (CsvFile payload) →
  carries_both_fields payload →
  (filter_results raw_path name s).1 = Ok (Some p) →
  ∃ cleaned,
    fs (filter_results raw_path name s).2 !! p = Some (CsvFile cleaned)
    ∧ carries_both_fields cleaned
    ∧ columns cleaned ⊆ cols
    ∧ Forall (λ r, notna r = true) (rows cleaned)
    ∧ rows cleaned `sublist_of` rows payload
    ∧ remaining cleaned = rows cleaned.
Proof.
  intros Hfile Hcols.
  rewrite (filter_results_eq s raw_path name payload Hfile Hcols).
  destruct (length (remaining payload) <=? 3)%nat; [discriminate|].
  cbn [fst snd set_fs fs]. intros [= <-].
  eexists. split; [apply lookup_insert_eq|]. cbn [columns rows].
  split; [exact (project_carries payload Hcols)|].
  split; [|split; [|split]].
  - intros c [Hc _]%list_elem_of_filter. unfold keep_cols in Hc.
    by apply bool_decide_eq_true in Hc.
  - apply Forall_forall. by intros r [Hr _]%list_elem_of_filter.
  - apply sublist_filter.
  - unfold remaining. cbn [rows]. apply filter_idem.
Qed.

Lemma filter_results_cleaned_series_witness :
  let s := start_of_process {[ raw_ph := CsvFile ph_payload ]} in
  (filter_results raw_ph "pH" s).1 = Ok (Some filtered_ph)
  ∧ ∃ cleaned,
      fs (filter_results raw_ph "pH" s).2 !! filtered_ph = Some (CsvFile cleaned)
      ∧ Forall (λ r, notna r = true) (rows cleaned).
Proof.
  cbv zeta.
  assert (Hout : (filter_results raw_ph "pH"
                    (start_of_process {[ raw_ph := CsvFile ph_payload ]})).1
                 = Ok (Some filtered_ph)) by (vm_compute; reflexivity).
  split; [exact Hout|].
  assert (Hraw : fs (start_of_process {[ raw_ph := CsvFile ph_payload ]}) !! raw_ph
                 = Some (CsvFile ph_payload)) by apply lookup_singleton_eq.
  assert (Hcols : carries_both_fields ph_payload) by (split; set_solver).
  destruct (filter_results_cleaned_series _ raw_ph "pH" ph_payload filtered_ph
              Hraw Hcols Hout)
    as (cleaned & Hfile & _ & _ & Hall & _).
  exists cleaned. split; [exact Hfile | exact Hall].
Defined.

(** X9.  Whenever [filter_results] returns, with a path or with [None], the
    raw payload was there and has been consumed: apart from the path it
    returns, the file store is the old one without the raw payload.  So
    the raw payload is gone unless it is the path returned, and on [None]
    nothing else has changed. *)
Theorem filter_results_consumes_raw raw_path name s out s' :
  filter_results raw_path name s = (Ok out, s') →
  is_Some (fs s !! raw_path)
  ∧ (∀ q, out ≠ Some q → fs s' !! q = delete raw_path (fs s) !! q)
  ∧ (out ≠ Some raw_path → fs s' !! raw_path = None)
  ∧ (out = None → fs s' = delete raw_path (fs s)).
Proof.
  intros Hrun.
  destruct (filter_results_inv _ _ _ _ _ Hrun)
    as [(e & [=] & _) | (payload & Hfile & _ & Heq)].
  assert (Hrest : ∀ q, out ≠ Some q → fs s' !! q = delete raw_path (fs s) !! q).
  { destruct (length (remaining payload) <=? 3)%nat; injection Heq as -> ->.
    - done.
    - intros q Hq. cbn [set_fs fs]. apply lookup_insert_ne. by intros <-. }
  split; [eauto|]. split; [exact Hrest|]. split.
  - intros Hq. rewrite (Hrest _ Hq). apply lookup_delete_eq.
  - intros ->. apply map_eq. intros q. by apply Hrest.
Qed.

Lemma filter_results_consumes_raw_witness :
  let s := start_of_process {[ raw_ph := CsvFile ph_payload ]} in
  filter_results raw_ph "pH" s
  = (Ok (Some filtered_ph), (filter_results raw_ph "pH" s).2)
  ∧ fs (filter_results raw_ph "pH" s).2 !! raw_ph = None.
Proof.
  cbv zeta.
  assert (Hrun : filter_results raw_ph "pH"
                   (start_of_process {[ raw_ph := CsvFile ph_payload ]})
                 = (Ok (Some filtered_ph),
                    (filter_results raw_ph "pH"
                       (start_of_process {[ raw_ph := CsvFile ph_payload ]})).2))
    by (vm_compute; reflexivity).
  split; [exact Hrun|].
  destruct (filter_results_consumes_raw _ _ _ _ _ Hrun) as (_ & _ & Hgone & _).
  apply Hgone. discriminate.
Defined.

(** ** [create_chart]: failure, repetition, and the series of the filter *)

(** X10.  When [create_chart] raises, the input file was there and nothing
    has been written: the state is the one before the call, so no chart is
    left half made. *)
Theorem create_chart_raises_unchanged W name path s e s' :
  create_chart W name path s = (Raise e, s') →
  s' = s ∧ is_Some (fs s !! path).
Proof.
  intros Hrun.
  destruct (create_chart_inv _ _ _ _ _ _ Hrun)
    as [(_ & Hr & _) | [(df & ds & _ & _ & _ & Hr & _) | (e' & Hfile & _ & ->)]];
    [discriminate Hr | discriminate Hr | done].
Qed.

Lemma create_chart_raises_unchanged_witness :
  let s := start_of_process {[ filtered_ph := CsvFile broken_series ]} in
  create_chart gulf "pH" filtered_ph s
  = (Raise (Exception ValueError "Unknown datetime string format: spring 2001"), s)
  ∧ is_Some (fs s !! filtered_ph).
Proof.
  cbv zeta.
  assert (Hrun : create_chart gulf "pH" filtered_ph
                   (start_of_process {[ filtered_ph := CsvFile broken_series ]})
                 = (Raise (Exception ValueError
                             "Unknown datetime string format: spring 2001"),
                    (create_chart gulf "pH" filtered_ph
                       (start_of_process {[ filtered_ph := CsvFile broken_series ]})).2))
    by (vm_compute; reflexivity).
  destruct (create_chart_raises_unchanged _ _ _ _ _ _ Hrun) as [Hs Hfile].
  rewrite Hs in Hrun. split; [exact Hrun | exact Hfile].
Defined.

(** X11.  Emitting twice is emitting once: a second call of [create_chart]
    for the same name on the same input, which is not the chart file
    itself, gives the result of the first call and leaves its state. *)
Theorem create_chart_twice W name path s :
  path ≠ chart_path W name →
  create_chart W name path (create_chart W name path s).2
  = create_chart W name path s.
Proof.
  intros Hne.
  destruct (create_chart W name path s) as [r s1] eqn:Hrun. cbn [snd].
  destruct (create_chart_inv _ _ _ _ _ _ Hrun)
    as [(_ & -> & ->) | [(df & ds & Hfile & Hcols & Hds & -> & ->)
                        | (e' & _ & -> & ->)]];
    [exact Hrun | | exact Hrun].
  rewrite (create_chart_eq W name path _ df ds); [| |done..].
  - f_equal. unfold set_fs. cbn [fs analysis_state vectorstore clock trace].
    by rewrite insert_insert_eq.
  - cbn [set_fs fs]. by rewrite lookup_insert_ne.
Qed.

Lemma create_chart_twice_witness :
  let cleaned := {| columns := cols; rows := remaining ph_payload |} in
  let s := start_of_process {[ filtered_ph := CsvFile cleaned ]} in
  filtered_ph ≠ chart_path gulf "pH"
  ∧ fs (create_chart gulf "pH" filtered_ph (create_chart gulf "pH" filtered_ph s).2).2
    = fs (create_chart gulf "pH" filtered_ph s).2.
Proof.
  cbv zeta. split; [discriminate|].
  rewrite (create_chart_twice gulf "pH" filtered_ph); [reflexivity | discriminate].
Defined.

(** X12.  The emitter accepts what the filter wrote: when [filter_results]
    has accepted a payload and [pd.to_datetime] reads the dates that are
    left, [create_chart] on the path it returned raises nothing and
    persists a chart for the name.  The series of that chart is made of
    the rows that are left, coerced, in ascending order of date (in
    whatever order for the records of one date), and the range of its
    value axis is the minimum and the maximum of its values. *)
Theorem filter_then_chart W name raw_path s payload ds :
  fs s !! raw_path = Some (CsvFile payload) →
  carries_both_fields payload →
  3 < length (remaining payload) →
  to_datetime (remaining payload) = Ok ds →
  let s1 := (filter_results raw_path name s).2 in
  ∃ p fig,
    (filter_results raw_path name s).1 = Ok (Some p)
    ∧ create_chart W name p s1
      = (Ok tt, set_fs (insert (chart_path W name) (HtmlFile fig)) s1)
    ∧ title fig = "Result Measure Value Over Time for " +:+ name
    ∧ zip (x fig) (y fig)
      ≡ₚ dropna_converted ds (to_numeric (remaining payload))
    ∧ StronglySorted Z.le (x fig)
    ∧ yaxis_range fig = (series_min (y fig), series_max (y fig)).
Proof.
  intros Hfile Hcols Hmore Hds. cbv zeta.
  rewrite (filter_results_eq s raw_path name payload Hfile Hcols).
  destruct (Nat.leb_spec (length (remaining payload)) 3) as [Hle|_]; [lia|].
  cbn [fst snd]. eexists _, _. split; [reflexivity|]. split.
  - apply (create_chart_eq W name _ _
             {| columns := filter (λ c, keep_cols c = true) (columns payload);
                rows := remaining payload |} ds).
    + cbn [set_fs fs]. apply lookup_insert_eq.
    + exact (project_carries payload Hcols).
    + exact Hds.
  - cbn [title x y yaxis_range figure_of]. split; [reflexivity|].
    split; [rewrite zip_fst_snd; apply sort_values_perm|].
    split; [apply sorted_dates, sort_values_sorted | reflexivity].
Qed.

Lemma filter_then_chart_witness :
  let s := start_of_process {[ raw_ph := CsvFile ph_payload ]} in
  3 < length (remaining ph_payload)
  ∧ (create_chart gulf "pH" filtered_ph (filter_results raw_ph "pH" s).2).1 = Ok tt.
Proof.
  cbv zeta. split; [vm_compute; lia|].
  assert (Hraw : fs (start_of_process {[ raw_ph := CsvFile ph_payload ]}) !! raw_ph
                 = Some (CsvFile ph_payload)) by apply lookup_singleton_eq.
  assert (Hcols : carries_both_fields ph_payload) by (split; set_solver).
  destruct (filter_then_chart gulf "pH" raw_ph _ ph_payload
              [Some 11443; Some 10652; Some 10957; Some 10411; Some 10412]%Z
              Hraw Hcols ltac:(vm_compute; lia) eq_refl)
    as (p & fig & Hout & Hchart & _).
  assert (Hp : p = filtered_ph).
  { rewrite (filter_results_eq _ raw_ph "pH" ph_payload Hraw Hcols) in Hout.
    cbn in Hout. by injection Hout as <-. }
  rewrite Hp in Hchart. by rewrite Hchart.
Defined.

(** ** [search]: configuration, exclusion and the store *)

(** X13.  Without a usable configuration (catalog unreadable or empty, every
    name excluded, or no API key) [search] raises before it calls the
    embedding provider or the vector store: the process state is the one
    before the call; when the catalog could be read, the exception is an
    [AssertionError]. *)
Theorem search_unconfigured W scene s :
  ¬ configured W →
  ∃ e, search W scene s = (Raise e, s)
       ∧ (∀ values, values_filtered_json W = Ok values → kind e = AssertionError).
Proof.
  intros Hconf. unfold search, bind, lift. fold (invalid_values W).
  destruct (values_filtered_json W) as [values|e] eqn:Hjson;
    [|exists e; split; [done | discriminate]].
  unfold assert_ at 1. case_bool_decide as Hv; [|eexists; split; done].
  cbn [ret]. unfold assert_ at 1. case_bool_decide as Hf; [|eexists; split; done].
  cbn [ret]. unfold assert_ at 1.
  destruct (Py.truthy (default "" (OPENAI_API_KEY W))) eqn:Hkey;
    [|eexists; split; done].
  destruct Hconf. exists values. done.
Qed.

Lemma search_unconfigured_witness :
  ¬ configured gulf_without_key
  ∧ search gulf_without_key "oil spill" (start_of_process ∅)
    = (Raise (Exception AssertionError "OPENAI_API_KEY not set"),
       start_of_process ∅).
Proof.
  assert (Hconf : ¬ configured gulf_without_key)
    by (intros (values & _ & _ & Hkey); discriminate Hkey).
  split; [exact Hconf|].
  destruct (search_unconfigured gulf_without_key "oil spill" (start_of_process ∅) Hconf)
    as (e & Hrun & _).
  rewrite Hrun. f_equal.
  assert (He : (search gulf_without_key "oil spill" (start_of_process ∅)).1
               = Raise (Exception AssertionError "OPENAI_API_KEY not set"))
    by (vm_compute; reflexivity).
  rewrite Hrun in He. exact He.
Defined.

(** X14.  Whatever a call of [search] does, what it adds to the persisted
    collection are names of the catalog, in catalog order, none of which is
    listed in [invalid.txt]; nothing is ever taken out of the collection. *)
Theorem search_adds_valid_names W scene s :
  ∃ texts,
    vectorstore (search W scene s).2 = vectorstore s ++ texts
    ∧ Forall (λ t, t ∉ invalid_values W) texts
    ∧ ∀ values, values_filtered_json W = Ok values → texts `sublist_of` values.
Proof.
  unfold search, bind, lift. fold (invalid_values W).
  destruct (values_filtered_json W) as [values|e];
    [|exists []; rewrite app_nil_r; split; [done|]; split; [done | discriminate]].
  assert (Hnone : ∀ s0 : Sys, vectorstore s0 = vectorstore s → ∃ texts,
            vectorstore s0 = vectorstore s ++ texts
            ∧ Forall (λ t, t ∉ invalid_values W) texts
            ∧ ∀ values0, Ok values = Ok values0 → texts `sublist_of` values0).
  { intros s0 Hs0. exists []. rewrite app_nil_r. split; [done|]. split; [done|].
    intros ? _. apply sublist_nil_l. }
  unfold assert_ at 1. case_bool_decide as Hv; [|by apply Hnone].
  cbn [ret]. unfold assert_ at 1. case_bool_decide as Hf; [|by apply Hnone].
  cbn [ret]. unfold assert_ at 1.
  destruct (Py.truthy (default "" (OPENAI_API_KEY W))); [|by apply Hnone].
  cbn [ret]. unfold Chroma_from_texts, find_related, bind, tick, get, modify, lift.
  cbn [clock]. destruct (embed W (clock s) _) as [e|]; [by apply Hnone|].
  cbn [fst snd vectorstore set_vectorstore log clock].
  exists (filter (λ v, v ∉ invalid_values W) values).
  split; [by destruct (similarity_search W _ _ scene 20)|].
  split.
  - apply Forall_forall. by intros t [Ht _]%list_elem_of_filter.
  - intros ? [= <-]. apply sublist_filter.
Qed.

(** X15.  With a similarity search that answers with documents of the
    store, [k] at most, and a store that holds no excluded name, [search]
    returns 20 names at most and never a name listed in [invalid.txt]. *)
Theorem search_returns_no_excluded_name W scene s results s' :
  searches_the_store W →
  Forall (λ d, d ∉ invalid_values W) (vectorstore s) →
  search W scene s = (Ok results, s') →
  Forall (λ d, d ∉ invalid_values W) results ∧ length results ≤ 20.
Proof.
  intros Horacle Hstore (values & _ & _ & _ & _ & Hsim)%search_returns.
  destruct (Horacle _ _ _ _ _ Hsim) as [Hsub Hlen]. split; [|exact Hlen].
  apply Forall_forall. intros d Hd. apply Hsub in Hd.
  apply elem_of_app in Hd as [Hd|Hd].
  - by apply (proj1 (Forall_forall _ _) Hstore).
  - by apply list_elem_of_filter in Hd as [Hd _].
Qed.

Lemma gulf_searches_the_store : searches_the_store gulf.
Proof.
  intros t docs query k results [= <-]. split.
  - apply subseteq_take.
  - rewrite length_take. lia.
Qed.

Lemma search_returns_no_excluded_name_witness :
  searches_the_store gulf
  ∧ search gulf "oil spill" (start_of_process ∅)
    = (Ok ["pH"; "Turbidity"], (search gulf "oil spill" (start_of_process ∅)).2)
  ∧ Forall (λ d, d ∉ invalid_values gulf) ["pH"; "Turbidity"].
Proof.
  assert (Hrun : search gulf "oil spill" (start_of_process ∅)
                 = (Ok ["pH"; "Turbidity"],
                    (search gulf "oil spill" (start_of_process ∅)).2))
    by (vm_compute; reflexivity).
  split; [exact gulf_searches_the_store|]. split; [exact Hrun|].
  assert (Hstore : Forall (λ d, d ∉ invalid_values gulf)
                      (vectorstore (start_of_process ∅))) by constructor.
  apply (search_returns_no_excluded_name gulf "oil spill" (start_of_process ∅)
           _ _ gulf_searches_the_store Hstore Hrun).
Defined.

(** ** The job state along a run *)

Lemma job_post_ret {A} (a : A) Q j : Q (Ok a) j → job_post (ret a) Q j.
Proof. intros HQ s <-. exact HQ. Qed.

Lemma job_post_bind {A B} (m : M A) (k : A → M B) Q j :
  job_post m (λ r j', match r with
                      | Ok a => job_post (k a) Q j'
                      | Raise e => Q (Raise e) j'
                      end) j →
  job_post (bind m k) Q j.
Proof.
  intros Hm s Hs. specialize (Hm s Hs). unfold bind.
  destruct (m s) as [[a|e] s1]; cbn [fst snd] in *; [by apply Hm | exact Hm].
Qed.

Lemma job_post_quiet_bind {A B} (m : M A) (k : A → M B) Q j :
  quiet m → (∀ a, job_post (k a) Q j) → (∀ e, Q (Raise e) j) →
  job_post (bind m k) Q j.
Proof.
  intros Hq Hk He. apply job_post_bind. intros s Hs.
  destruct (Hq s) as [Hj _]. rewrite Hj, Hs.
  destruct (m s).1; [apply Hk | apply He].
Qed.

Lemma job_post_update_bind {B} st msg pr tot comp (k : unit → M B) Q j :
  job_post (k tt) Q
    (apply_update {| u_status := st; u_message := msg; u_progress := pr;
                     u_total_characteristics := tot;
                     u_completed_charts := comp |} j) →
  job_post (bind (update_analysis_status st msg pr tot comp) k) Q j.
Proof.
  intros Hk s Hs. unfold bind. rewrite update_analysis_status_eq.
  apply Hk. cbn. by rewrite Hs.
Qed.

Lemma job_post_try_continue {A} (m : M A) (a : A) Q j :
  job_post m (λ r j', Q (Ok (match r with Ok a' => a' | Raise _ => a end)) j') j →
  job_post (try_except m (λ _, ret a)) Q j.
Proof. intros Hm s Hs. rewrite try_except_ret. by apply Hm. Qed.

Lemma job_post_impl {A} (m : M A) (Q Q' : result A → JobState → Prop) j :
  job_post m Q j → (∀ r j', Q r j' → Q' r j') → job_post m Q' j.
Proof. intros Hm HQ s Hs. by apply HQ, Hm. Qed.

(** The body of the loop returns the count it was given, the fields of the
    counts untouched, or the next count, which it has then written to
    [completed_charts]; it never writes [total_characteristics]. *)
Lemma candidate_counts W total_chars i characteristic completed j :
  job_post (candidate W total_chars i characteristic completed)
    (λ r j', ∃ completed',
       r = Ok completed'
       ∧ total_characteristics j' = total_characteristics j
       ∧ status j' = status j
       ∧ (completed' = completed ∧ completed_charts j' = completed_charts j
          ∨ completed' = S completed ∧ completed_charts j' = S completed))
    j.
Proof.
  assert (Hskip : ∀ (r : result nat) us,
            Forall (λ u, u_status u = None ∧ u_total_characteristics u = None
                         ∧ u_completed_charts u = None) us →
            (∀ a, r ≠ Ok a) ∨ r = Ok completed →
            ∃ completed',
              Ok (match r with Ok a' => a' | Raise _ => completed end) = Ok completed'
              ∧ total_characteristics (job_after j us) = total_characteristics j
              ∧ status (job_after j us) = status j
              ∧ (completed' = completed
                 ∧ completed_charts (job_after j us) = completed_charts j
                 ∨ completed' = S completed
                   ∧ completed_charts (job_after j us) = S completed)).
  { intros r us Hus Hr. exists completed.
    split; [destruct Hr as [Hr| ->]; [destruct r; [by destruct (Hr a)|done] | done]|].
    assert (Hkeep : total_characteristics (job_after j us) = total_characteristics j
                    ∧ status (job_after j us) = status j
                    ∧ completed_charts (job_after j us) = completed_charts j).
    { clear Hr. revert j. unfold job_after.
      induction us as [|u us IH]; intros j; [done|].
      apply Forall_cons in Hus as [(Hs & Ht & Hc) Hus]. cbn [foldl].
      destruct (IH Hus (flip apply_update j u)) as (-> & -> & ->).
      unfold flip, apply_update. cbn. by rewrite Hs, Ht, Hc. }
    destruct Hkeep as (Ht & Hs & Hc). split; [done|]. split; [done|].
    left. done. }
  unfold candidate. apply job_post_try_continue.
  apply job_post_update_bind.
  apply job_post_quiet_bind; [apply quiet_fetch_API | |].
  2:{ intros e. apply (Hskip (Raise e) [step1 total_chars i characteristic]);
        [repeat constructor | left; discriminate]. }
  intros raw_path. destruct (negb (Py.truthy raw_path)).
  { apply job_post_ret.
    apply (Hskip (Ok completed) [step1 total_chars i characteristic]);
      [repeat constructor | by right]. }
  apply job_post_update_bind.
  apply job_post_quiet_bind; [apply quiet_filter_results | |].
  2:{ intros e.
      apply (Hskip (Raise e) [step1 total_chars i characteristic;
                              step2 total_chars i characteristic]);
        [repeat constructor | left; discriminate]. }
  assert (Hrejected : job_post (ret completed)
            (λ r j', ∃ completed',
               Ok (match r with Ok a' => a' | Raise _ => completed end) = Ok completed'
               ∧ total_characteristics j' = total_characteristics j
               ∧ status j' = status j
               ∧ (completed' = completed ∧ completed_charts j' = completed_charts j
                  ∨ completed' = S completed ∧ completed_charts j' = S completed))
            (job_after j [step1 total_chars i characteristic;
                          step2 total_chars i characteristic])).
  { apply job_post_ret.
    apply (Hskip (Ok completed) [step1 total_chars i characteristic;
                                 step2 total_chars i characteristic]);
      [repeat constructor | by right]. }
  intros [filtered_path|]; [|exact Hrejected].
  destruct (negb (Py.truthy filtered_path)); [exact Hrejected|].
  apply job_post_update_bind.
  apply job_post_quiet_bind; [apply quiet_create_chart | |].
  2:{ intros e.
      apply (Hskip (Raise e) [step1 total_chars i characteristic;
                              step2 total_chars i characteristic;
                              step3 total_chars i characteristic]);
        [repeat constructor | left; discriminate]. }
  intros _. apply job_post_update_bind. apply job_post_ret.
  exists (S completed). split; [reflexivity|]. split; [reflexivity|].
  split; [reflexivity|]. right. done.
Qed.

(** Through the loop [completed_charts] follows the local count, which
    grows by one per candidate at most. *)
Lemma for_candidates_counts W total_chars results_list :
  ∀ i completed j,
    completed_charts j = completed →
    job_post (for_candidates W total_chars i results_list completed)
      (λ r j', ∃ completed',
         r = Ok completed'
         ∧ completed ≤ completed' ≤ completed + length results_list
         ∧ completed_charts j' = completed'
         ∧ total_characteristics j' = total_characteristics j
         ∧ status j' = status j)
      j.
Proof.
  induction results_list as [|c rest IH]; intros i completed j Hj.
  - apply job_post_ret. exists completed. cbn [length]. repeat split; [lia|lia|done].
  - cbn [for_candidates]. apply job_post_bind.
    eapply job_post_impl; [apply candidate_counts|].
    intros r j1 (completed1 & -> & Htot & Hst & Hcount).
    eapply job_post_impl; [apply (IH (S i) completed1 j1)|].
    + destruct Hcount as [[-> Hc]|[-> Hc]]; congruence.
    + intros r' j2 (completed2 & -> & Hle & Hc2 & Htot2 & Hst2).
      exists completed2. cbn [length].
      split; [done|]. split; [destruct Hcount as [[-> _]|[-> _]]; lia|].
      split; [done|]. split; congruence.
Qed.

Lemma job_after_keeps_scenario us : ∀ j,
  current_scenario (job_after j us) = current_scenario j
  ∧ error_message (job_after j us) = error_message j.
Proof.
  unfold job_after. induction us as [|u us IH]; intros j; [done|].
  cbn [foldl]. destruct (IH (flip apply_update j u)) as [-> ->]. done.
Qed.




(** X16.  A run never writes [current_scenario] nor [error_message]: both
    are after the run what they were before it, also when the run ends in
    [Error] (the text of the exception goes to [message]). *)
Theorem run_analysis_keeps_scenario W scenario s :
  current_scenario (analysis_state (run_analysis W scenario s).2)
  = current_scenario (analysis_state s)
  ∧ error_message (analysis_state (run_analysis W scenario s).2)
    = error_message (analysis_state s).
Proof.
  destruct (run_analysis_updates W scenario s) as [_ Hshape].
  destruct (retrieval W scenario s) as [results_list|e].
  - destruct Hshape as (segs & completed & _ & Hjob & _).
    rewrite Hjob. apply job_after_keeps_scenario.
  - destruct Hshape as [Hjob _]. rewrite Hjob. apply job_after_keeps_scenario.
Qed.

(** X17.  A run that starts with [completed_charts] at 0, as after a reset,
    and gets its candidates ends with [total_characteristics] the number of
    candidates, [completed_charts] at most that number, and a message that
    reports [completed_charts]. *)
Theorem run_analysis_counts W scenario s results_list :
  completed_charts (analysis_state s) = 0 →
  retrieval W scenario s = Ok results_list →
  let j' := analysis_state (run_analysis W scenario s).2 in
  total_characteristics j' = length results_list
  ∧ completed_charts j' ≤ total_characteristics j'
  ∧ message j'
    = "Analysis completed! Generated " +:+ pretty (completed_charts j') +:+ " charts.".
Proof.
  intros Hzero Hret. cbv zeta. unfold retrieval in Hret.
  rewrite run_analysis_eq.
  destruct (quiet_search W scenario (after_update run_started s)) as [Hj _].
  destruct (search W scenario (after_update run_started s))
    as [[results|e] s2]; cbn [fst snd] in *; [|discriminate Hret].
  injection Hret as ->.
  pose proof (for_candidates_counts W (length results_list) results_list 0 0
                (analysis_state (after_update (found (length results_list)) s2))
                ltac:(cbn; by rewrite Hj)
                (after_update (found (length results_list)) s2) eq_refl)
    as (completed & Hr & Hle & Hc & Htot & _).
  destruct (for_candidates W (length results_list) 0 results_list 0 _)
    as [r s4]; cbn [fst snd] in *. subst r.
  cbn [snd after_update analysis_state log set_job apply_update run_completed
       u_total_characteristics u_completed_charts u_message default
       total_characteristics completed_charts message].
  rewrite Hc, Htot. cbn. split; [done|]. split; [lia | done].
Qed.

Lemma run_analysis_counts_witness :
  let s := start_of_process ∅ in
  completed_charts (analysis_state s) = 0
  ∧ retrieval gulf "oil spill" s = Ok ["pH"; "Turbidity"]
  ∧ completed_charts (analysis_state (run_analysis gulf "oil spill" s).2)
    ≤ total_characteristics (analysis_state (run_analysis gulf "oil spill" s).2).
Proof.
  cbv zeta. split; [reflexivity|].
  assert (Hret : retrieval gulf "oil spill" (start_of_process ∅)
                 = Ok ["pH"; "Turbidity"]) by (vm_compute; reflexivity).
  split; [exact Hret|].
  apply (run_analysis_counts gulf "oil spill" (start_of_process ∅) _ eq_refl Hret).
Defined.





(** ** Start requests in a row, and a request with its run *)

Lemma analyze_accepted s request :
  status (analysis_state s) ≠ Running →
  whitespace_only (default "" (scenario request)) = false →
  analyze request s
  = (Ok (started (Py.strip (default "" (scenario request)))),
     accepted (Py.strip (default "" (scenario request))) s).
Proof.
  intros Hst Hblank. unfold analyze, bind, get.
  rewrite (strip_not_whitespace_only _ Hblank). cbn [negb].
  by destruct (status (analysis_state s)).
Qed.

(** X19.  An accepted start request leaves the status [Idle]: it is the run
    that sets [Running], with its first update.  A second request that
    comes before that update is therefore accepted too, and two runs are
    handed to threads. *)
Theorem analyze_twice_both_accepted s request1 request2 :
  status (analysis_state s) ≠ Running →
  whitespace_only (default "" (scenario request1)) = false →
  whitespace_only (default "" (scenario request2)) = false →
  let scenario1 := Py.strip (default "" (scenario request1)) in
  let scenario2 := Py.strip (default "" (scenario request2)) in
  let s1 := (analyze request1 s).2 in
  status (analysis_state s1) = Idle
  ∧ (analyze request2 s1).1 = Ok (started scenario2)
  ∧ trace (analyze request2 s1).2
    = EvThreadStart scenario2 :: EvThreadStart scenario1 :: trace s.
Proof.
  intros Hst H1 H2. cbv zeta.
  rewrite (analyze_accepted s request1 Hst H1). cbn [snd].
  split; [reflexivity|].
  rewrite (analyze_accepted _ request2); [done | discriminate | exact H2].
Qed.

Lemma analyze_twice_both_accepted_witness :
  status (analysis_state after_a_run) ≠ Running
  ∧ trace (analyze {| scenario := Some "red tide" |}
             (analyze {| scenario := Some " oil spill " |} after_a_run).2).2
    = [EvThreadStart "red tide"; EvThreadStart "oil spill"].
Proof.
  split; [discriminate|].
  destruct (analyze_twice_both_accepted after_a_run
              {| scenario := Some " oil spill " |} {| scenario := Some "red tide" |}
              ltac:(discriminate) eq_refl eq_refl) as (_ & _ & Htrace).
  exact Htrace.
Defined.



(** ** The command line does what the server does *)

Lemma same_artifacts_refl s : same_artifacts s s.
Proof. done. Qed.

Lemma same_artifacts_trans s t u :
  same_artifacts s t → same_artifacts t u → same_artifacts s u.
Proof. intros (? & ? & ?) (? & ? & ?). repeat split; congruence. Qed.

Lemma same_artifacts_after_update u s : same_artifacts (after_update u s) s.
Proof. done. Qed.

Lemma blind_ret {A} (a : A) : blind (ret a).
Proof. by intros s t H. Qed.
Lemma blind_raise {A} e : blind (@raise A e).
Proof. by intros s t H. Qed.
Lemma blind_lift {A} (r : result A) : blind (lift r).
Proof. by intros s t H. Qed.
Lemma blind_assert c msg : blind (assert_ c msg).
Proof. destruct c; by intros s t H. Qed.
Lemma blind_tick : blind tick.
Proof. intros s t (Hf & Hv & Hc). cbn. by rewrite Hc. Qed.
Lemma blind_set_fs f : blind (modify (set_fs f)).
Proof.
  intros s t (Hf & Hv & Hc). unfold modify, set_fs, same_artifacts.
  cbn [fst snd fs vectorstore clock]. by rewrite Hf.
Qed.
Lemma blind_set_vectorstore f : blind (modify (set_vectorstore f)).
Proof.
  intros s t (Hf & Hv & Hc). unfold modify, set_vectorstore, same_artifacts.
  cbn [fst snd fs vectorstore clock]. by rewrite Hv.
Qed.
Lemma blind_log e : blind (modify (log e)).
Proof. by intros s t H. Qed.
Lemma blind_os_path_exists path : blind (os_path_exists path).
Proof.
  intros s t (Hf & Hv & Hc). unfold os_path_exists, same_artifacts.
  cbn [fst snd]. by rewrite Hf.
Qed.
Lemma blind_os_remove path : blind (os_remove path).
Proof.
  intros s t (Hf & Hv & Hc). unfold os_remove. rewrite Hf.
  destruct (fs t !! path); [|done]. unfold set_fs, same_artifacts.
  cbn [fst snd fs vectorstore clock]. by rewrite Hf.
Qed.
Lemma blind_read_csv path : blind (read_csv path).
Proof.
  intros s t (Hf & Hv & Hc). unfold read_csv. rewrite Hf.
  by destruct (fs t !! path) as [[]|].
Qed.

Lemma blind_bind {A B} (m : M A) (k : A → M B) :
  blind m → (∀ a, blind (k a)) → blind (bind m k).
Proof.
  intros Hm Hk s t Hst. unfold bind. destruct (Hm s t Hst) as [Hr Hs].
  destruct (m s) as [r s1], (m t) as [r' t1]. cbn [fst snd] in *. subst r'.
  destruct r as [a|e]; [by apply Hk | done].
Qed.

Lemma blind_try_except {A} (m : M A) (h : exn → M A) :
  blind m → (∀ e, blind (h e)) → blind (try_except m h).
Proof.
  intros Hm Hh s t Hst. unfold try_except. destruct (Hm s t Hst) as [Hr Hs].
  destruct (m s) as [r s1], (m t) as [r' t1]. cbn [fst snd] in *. subst r'.
  destruct r as [a|e]; [done | by apply Hh].
Qed.

Lemma blind_find_related W scene top_n : blind (find_related W scene top_n).
Proof.
  intros s t (Hf & Hv & Hc). unfold find_related, bind, tick, get, lift.
  cbn. rewrite Hc, Hv. by destruct (similarity_search W _ _ _ _).
Qed.

Create HintDb blind discriminated.
#[local] Hint Resolve blind_ret blind_raise blind_lift blind_assert blind_tick
  blind_set_fs blind_set_vectorstore blind_log blind_os_path_exists
  blind_os_remove blind_read_csv blind_find_related : blind.

Ltac blind_steps :=
  repeat match goal with
    | |- blind (bind _ _) => apply blind_bind; [|intros ?]
    | |- blind (try_except _ _) => apply blind_try_except; [|intros ?]
    | |- blind (if ?b then _ else _) => destruct b
    | |- blind (match ?o with Some _ => _ | None => _ end) => destruct o
    | |- blind _ => solve [eauto with blind]
    end.

Lemma blind_write_file path f : blind (write_file path f).
Proof. unfold write_file. blind_steps. Qed.
#[local] Hint Resolve blind_write_file : blind.

Lemma blind_fetch_API W inVar inVar2 : blind (fetch_API W inVar inVar2).
Proof. unfold fetch_API, requests_get. blind_steps. Qed.

Lemma blind_filter_results raw_path name : blind (filter_results raw_path name).
Proof. unfold filter_results, read_csv_usecols, to_csv. blind_steps. Qed.

Lemma blind_create_chart W name path : blind (create_chart W name path).
Proof. unfold create_chart. blind_steps. Qed.

Lemma blind_search W inVar : blind (search W inVar).
Proof. unfold search, Chroma_from_texts. blind_steps. Qed.

(** Running a blind computation from two states with the same artifacts. *)
Lemma blind_run {A} (m : M A) s t r t' :
  blind m → same_artifacts s t → m t = (r, t') →
  ∃ s', m s = (r, s') ∧ same_artifacts s' t'.
Proof.
  intros Hm Hst Hrun. destruct (Hm s t Hst) as [Hr Hs]. rewrite Hrun in Hr, Hs.
  cbn [fst snd] in Hr, Hs.
  exists (m s).2. split; [|exact Hs]. rewrite <- Hr. by destruct (m s).
Qed.

(** The body of the loop of the server follows the body of the loop of the
    command line when that one raises nothing. *)
Lemma candidate_follows_init_body W total_chars i characteristic completed s t t' :
  same_artifacts s t →
  init_body W characteristic t = (Ok tt, t') →
  same_artifacts (candidate W total_chars i characteristic completed s).2 t'.
Proof.
  intros Hst Hrun. unfold candidate. rewrite try_except_ret. cbn [snd].
  unfold bind at 1. rewrite update_analysis_status_eq.
  match goal with |- context [after_update ?u s] =>
    pose proof (same_artifacts_trans _ _ _ (same_artifacts_after_update u s) Hst)
      as Hs1; set (s1 := after_update u s) in * end.
  unfold init_body in Hrun. unfold bind at 1 in Hrun. unfold bind at 1.
  destruct (fetch_API W characteristic "01-01-1980" t) as [r2 t2] eqn:Hfetch.
  destruct (blind_run _ s1 t r2 t2 (blind_fetch_API W _ _) Hs1 Hfetch)
    as (s2 & -> & Hs2).
  destruct r2 as [raw_path|e]; [|discriminate Hrun].
  destruct (negb (Py.truthy raw_path)).
  { injection Hrun as <-. exact Hs2. }
  unfold bind at 1. rewrite update_analysis_status_eq.
  match goal with |- context [after_update ?u s2] =>
    pose proof (same_artifacts_trans _ _ _ (same_artifacts_after_update u s2) Hs2)
      as Hs3; set (s3 := after_update u s2) in * end.
  unfold bind at 1 in Hrun. unfold bind at 1.
  destruct (filter_results raw_path characteristic t2) as [r4 t4] eqn:Hfilter.
  destruct (blind_run _ s3 t2 r4 t4 (blind_filter_results _ _) Hs3 Hfilter)
    as (s4 & -> & Hs4).
  destruct r4 as [[filtered_path|]|e]; [| |discriminate Hrun].
  2:{ injection Hrun as <-. exact Hs4. }
  destruct (negb (Py.truthy filtered_path)).
  { injection Hrun as <-. exact Hs4. }
  unfold bind at 1. rewrite update_analysis_status_eq.
  match goal with |- context [after_update ?u s4] =>
    pose proof (same_artifacts_trans _ _ _ (same_artifacts_after_update u s4) Hs4)
      as Hs5; set (s5 := after_update u s4) in * end.
  unfold bind at 1.
  destruct (blind_run _ s5 t4 _ _ (blind_create_chart W _ _) Hs5 Hrun)
    as (s6 & -> & Hs6).
  unfold bind. rewrite update_analysis_status_eq. cbn [snd ret].
  exact (same_artifacts_trans _ _ _ (same_artifacts_after_update _ s6) Hs6).
Qed.

Lemma for_candidates_follows_for_results W total_chars results_list :
  ∀ i completed s t t',
    same_artifacts s t →
    for_results W results_list t = (Ok tt, t') →
    same_artifacts (for_candidates W total_chars i results_list completed s).2 t'.
Proof.
  induction results_list as [|c rest IH]; intros i completed s t t' Hst Hrun.
  - injection Hrun as <-. exact Hst.
  - cbn [for_results for_candidates] in *. unfold bind in Hrun. unfold bind.
    destruct (init_body W c t) as [[[]|e] t1] eqn:Hbody; [|discriminate Hrun].
    pose proof (candidate_follows_init_body W total_chars i c completed s t t1
                  Hst Hbody) as Hs1.
    destruct (candidate_runs W total_chars i c completed s)
      as (completed1 & seg & Hcand & _).
    rewrite Hcand. rewrite Hcand in Hs1. cbn [snd] in Hs1.
    by apply (IH (S i) completed1 _ t1 t').
Qed.

(** X21.  When the command line [__init__] runs a scenario without a stage
    raising, the run of the server on the same scenario, from a state with
    the same files, vector store and clock, leaves the same files, the same
    vector store and the same clock: the two differ in the job state and
    in what they do with an exception only. *)
Theorem run_analysis_follows_command_line W scenario s t t' :
  same_artifacts s t →
  __init__ W scenario t = (Ok tt, t') →
  same_artifacts (run_analysis W scenario s).2 t'.
Proof.
  intros Hst Hrun. rewrite run_analysis_eq.
  unfold __init__, bind in Hrun.
  destruct (search W scenario t) as [r t2] eqn:Hsearch.
  destruct (blind_run _ (after_update run_started s) t r t2 (blind_search W _)
              (same_artifacts_trans _ _ _ (same_artifacts_after_update _ s) Hst)
              Hsearch) as (s2 & -> & Hs2).
  destruct r as [results_list|e]; [|discriminate Hrun].
  pose proof (for_candidates_follows_for_results W (length results_list)
                results_list 0 0
                (after_update (found (length results_list)) s2) t2 t'
                (same_artifacts_trans _ _ _ (same_artifacts_after_update _ s2) Hs2)
                Hrun) as Hloop.
  destruct (for_candidates W (length results_list) 0 results_list 0 _)
    as [[completed|e] s4]; cbn [snd] in *;
    exact (same_artifacts_trans _ _ _ (same_artifacts_after_update _ s4) Hloop).
Qed.

Lemma run_analysis_follows_command_line_witness :
  let s := start_of_process ∅ in
  (__init__ gulf "oil spill" s).1 = Ok tt
  ∧ fs (run_analysis gulf "oil spill" s).2 = fs (__init__ gulf "oil spill" s).2.
Proof.
  cbv zeta.
  assert (Hrun : __init__ gulf "oil spill" (start_of_process ∅)
                 = (Ok tt, (__init__ gulf "oil spill" (start_of_process ∅)).2))
    by (vm_compute; reflexivity).
  split; [by rewrite Hrun|].
  destruct (run_analysis_follows_command_line gulf "oil spill"
              (start_of_process ∅) (start_of_process ∅) _
              (same_artifacts_refl _) Hrun) as (Hfs & _ & _).
  exact Hfs.
Defined.

(** ** The validation of [dev_archive] and the pipeline *)

(** [pd.to_datetime] gives one reading per row. *)
Lemma to_datetime_length rs : ∀ ds, to_datetime rs = Ok ds → length ds = length rs.
Proof.
  induction rs as [|r rs IH]; intros ds Hds; [by injection Hds as <-|].
  cbn [to_datetime] in Hds.
  destruct (ActivityStartDate r) as [c|]; [destruct (datetime c); [|discriminate Hds]|];
    (destruct (to_datetime rs) as [ds'|e]; [|discriminate Hds]);
    injection Hds as <-; cbn [length]; by rewrite (IH ds').
Qed.

(** Of rows whose dates all read as dates the emitter keeps those whose
    value reads as a number. *)
Lemma dropna_converted_length (ds : list (option Z)) : ∀ vs : list (option Q),
  length ds = length vs →
  Forall is_Some ds →
  length (dropna_converted ds vs)
  = length (filter (λ v : option Q, is_Some v) vs).
Proof.
  induction ds as [|d ds IH]; intros [|v vs] Hlen Hall; try done.
  apply Forall_cons in Hall as [[d' ->] Hall]. injection Hlen as Hlen.
  specialize (IH vs Hlen Hall). unfold dropna_converted in *.
  cbn [zip zip_with omap list_omap]. rewrite filter_cons.
  destruct v as [v|]; cbn.
  - rewrite decide_True by eauto. cbn. by rewrite IH.
  - rewrite decide_False by (by intros [? ?]). exact IH.
Qed.

(** What a call of [validate_numeric_data] that answers [True] has seen. *)
Lemma validate_numeric_data_true raw_path name s s0 :
  validate_numeric_data raw_path name s = (Ok true, s0) →
  s0 = s
  ∧ ∃ payload,
      fs s !! raw_path = Some (CsvFile payload)
      ∧ carries_both_fields payload
      ∧ 3 < numeric_points payload.
Proof.
  intros Hrun.
  unfold validate_numeric_data, try_except, read_csv_usecols, bind, read_csv, lift
    in Hrun.
  destruct (fs s !! raw_path) as [[payload| |]|] eqn:Hfile;
    [| do 2 (try rewrite Hfile in Hrun; cbv beta iota in Hrun);
       discriminate Hrun ..].
  cbv beta iota in Hrun. cbn [ret] in Hrun.
  assert (Hframe : columns (project (λ c, bool_decide (c ∈ cols)) payload) = []
                   ∨ read_frame (project (λ c, bool_decide (c ∈ cols)) payload)
                     = project (λ c, bool_decide (c ∈ cols)) payload).
  { unfold read_frame. destruct (columns (project _ payload)); [by left | by right]. }
  destruct Hframe as [Hnone|Hframe].
  { unfold read_frame in Hrun. rewrite Hnone in Hrun. discriminate Hrun. }
  rewrite Hframe in Hrun.
  destruct (length (rows (project _ payload)) =? 0)%nat; [discriminate Hrun|].
  destruct (decide (carries_both_fields payload)) as [Hcols|Hcols].
  2:{ assert (Hproj : ¬ carries_both_fields
                        (project (λ c, bool_decide (c ∈ cols)) payload)).
      { intros [Hd Hv]. apply Hcols. unfold project in Hd, Hv. simpl in Hd, Hv.
        apply list_elem_of_filter in Hd as [_ Hd].
        apply list_elem_of_filter in Hv as [_ Hv]. by split. }
      destruct (dropna_lacks _ Hproj) as (e & He & _). rewrite He in Hrun.
      discriminate Hrun. }
  rewrite (dropna_carries _ (project_carries _ Hcols)) in Hrun.
  cbn [rows project columns] in Hrun.
  destruct (length _ =? 0)%nat; [discriminate Hrun|].
  rewrite getitem_carries in Hrun by (apply (project_carries _ Hcols)).
  cbn [rows] in Hrun. fold (remaining payload) in Hrun.
  fold (numeric_points payload) in Hrun.
  destruct (Nat.leb_spec (numeric_points payload) 3) as [Hle|Hlt];
    [discriminate Hrun|].
  injection Hrun as <-. split; [reflexivity|]. exists payload. done.
Qed.

Lemma numeric_points_le payload : numeric_points payload ≤ length (remaining payload).
Proof.
  unfold numeric_points. etrans; [apply length_filter|].
  unfold to_numeric. by rewrite length_map.
Qed.

(** X22.  A payload that [validate_numeric_data] answers [True] for is
    neither rejected nor charted empty by the pipeline: the call has
    written nothing, [filter_results] accepts the payload, and when
    [pd.to_datetime] reads the dates of the rows that are left, none of
    them as NaT, [create_chart] persists a chart with more than 3 points. *)
Theorem validated_payload_is_charted W name raw_path s s0 :
  validate_numeric_data raw_path name s = (Ok true, s0) →
  let s1 := (filter_results raw_path name s).2 in
  s0 = s
  ∧ ∃ p payload,
      fs s !! raw_path = Some (CsvFile payload)
      ∧ (filter_results raw_path name s).1 = Ok (Some p)
      ∧ ∀ ds, to_datetime (remaining payload) = Ok ds →
          Forall is_Some ds →
          ∃ fig,
            create_chart W name p s1
            = (Ok tt, set_fs (insert (chart_path W name) (HtmlFile fig)) s1)
            ∧ 3 < length (x fig)
            ∧ length (y fig) = length (x fig).
Proof.
  intros (-> & payload & Hfile & Hcols & Hpoints)%validate_numeric_data_true.
  cbv zeta. split; [reflexivity|].
  pose proof (numeric_points_le payload) as Hle.
  rewrite (filter_results_eq s raw_path name payload Hfile Hcols).
  destruct (Nat.leb_spec (length (remaining payload)) 3) as [Hle3|_]; [lia|].
  cbn [fst snd]. eexists _, payload. split; [exact Hfile|].
  split; [reflexivity|]. intros ds Hds Hdates. eexists. split.
  - apply (create_chart_eq W name _ _
             {| columns := filter (λ c, keep_cols c = true) (columns payload);
                rows := remaining payload |} ds).
    + cbn [set_fs fs]. apply lookup_insert_eq.
    + exact (project_carries payload Hcols).
    + exact Hds.
  - cbn [x y figure_of]. rewrite !length_fmap.
    split; [|reflexivity].
    rewrite (Permutation_length (sort_values_perm _)).
    unfold coerced. cbn [rows].
    rewrite (dropna_converted_length ds); [exact Hpoints | | exact Hdates].
    rewrite (to_datetime_length _ _ Hds). unfold to_numeric.
    by rewrite length_map.
Qed.

Lemma validated_payload_is_charted_witness :
  let s := start_of_process {[ raw_ph := CsvFile ph_payload ]} in
  validate_numeric_data raw_ph "pH" s = (Ok true, s)
  ∧ ∃ p, (filter_results raw_ph "pH" s).1 = Ok (Some p).
Proof.
  cbv zeta.
  assert (Hrun : validate_numeric_data raw_ph "pH"
                   (start_of_process {[ raw_ph := CsvFile ph_payload ]})
                 = (Ok true, start_of_process {[ raw_ph := CsvFile ph_payload ]}))
    by (vm_compute; reflexivity).
  split; [exact Hrun|].
  destruct (validated_payload_is_charted gulf "pH" raw_ph _ _ Hrun)
    as (_ & p & payload & _ & Hout & _).
  exists p. exact Hout.
Defined.

(** The converse fails: the filter accepts a series of four records whose
    values are all text, which the validation answers [False] for, and the
    chart of it is empty. *)
Example filter_accepts_unvalidated :
  let s := start_of_process {[ raw_ph := CsvFile nd_series ]} in
  validate_numeric_data raw_ph "pH" s = (Ok false, s)
  ∧ (filter_results raw_ph "pH" s).1 = Ok (Some filtered_ph).
Proof. cbv zeta. split; vm_compute; reflexivity. Qed.
